(** * torchtext.experimental.datasets.question_answer

    A shallow embedding of [QuestionAnswerDataset] and of the SQuAD1 / SQuAD2
    factory of [torchtext/experimental/datasets/question_answer.py], with the
    properties of its specification.

    Python values are modelled as follows:
    - [str] as [string], [int] as [Z], a list or tuple as [list];
    - the dict [raw_data] as a [gmap string _];
    - a raised exception as the [Err] branch of [Result];
    - [len] as the method of the class [PyLen]. *)

From Stdlib Require Import ZArith Ascii String.
From stdpp Require Import base option list gmap strings fin_maps.

Open Scope string_scope.
Open Scope list_scope.
Open Scope Z_scope.

(** ** Exceptions *)

Module Py.

Inductive exn : Type :=
| IndexError
| KeyError
| TypeError
| ValueError.

Inductive Result (A : Type) : Type :=
| OK (a : A)
| Err (e : exn).
Arguments OK {A} a.
Arguments Err {A} e.

Definition bind {A B : Type} (m : Result A) (f : A → Result B) : Result B :=
  match m with
  | OK a => f a
  | Err e => Err e
  end.

(** [len(x)], the [__len__] protocol. *)
Class PyLen (A : Type) := py_len : A → nat.

#[export] Instance list_PyLen {A : Type} : PyLen (list A) := λ l, length l.
#[export] Instance string_PyLen : PyLen string := String.length.

(** A sequence index, as Python normalises it: a negative index counts
    from the end. *)
Definition norm_index (n : nat) (i : Z) : Z :=
  if i <? 0 then i + Z.of_nat n else i.

(** [l[i]] on a list: [IndexError] outside [-len(l) <= i < len(l)]. *)
Definition getitem {A : Type} (l : list A) (i : Z) : Result A :=
  let k := norm_index (length l) i in
  if k <? 0 then Err IndexError
  else match l !! Z.to_nat k with
       | Some a => OK a
       | None => Err IndexError
       end.

(** A slice bound, as Python clamps it into [0 .. len]. *)
Definition clamp_bound (n : nat) (i : Z) : nat :=
  if i <? 0 then Z.to_nat (Z.max 0 (i + Z.of_nat n))
  else Nat.min (Z.to_nat i) n.

(** [s[:stop]] on a string. *)
Definition str_slice_to (s : string) (stop : Z) : string :=
  String.substring 0 (clamp_bound (String.length s) stop) s.

(** [l[start:stop]] on a list. *)
Definition slice {A : Type} (l : list A) (start stop : Z) : list A :=
  let lo := clamp_bound (length l) start in
  let hi := clamp_bound (length l) stop in
  take (hi - lo) (drop lo l).

(** [d[k]] on a dict: [KeyError] when the key is absent. *)
Definition dict_get {V : Type} (d : gmap string V) (k : string) : Result V :=
  match d !! k with
  | Some v => OK v
  | None => Err KeyError
  end.

(** [[f(x) for x in l]] where [f] may raise. *)
Fixpoint mapM {A B : Type} (f : A → Result B) (l : list A) : Result (list B) :=
  match l with
  | [] => OK []
  | x :: l' =>
      bind (f x) (λ y, bind (mapM f l') (λ ys, OK (y :: ys)))
  end.

End Py.

Import Py.

Notation "x ←? m ; k" := (Py.bind m (λ x, k))
  (at level 20, m at level 100, k at level 200, right associativity,
   format "x  ←?  m ;  '/' k") : stdpp_scope.

(** ** Data model *)

(** A raw example, the tuple [(context, question, answers, ans_pos)] that the
    raw loader yields; [-1] in [raw_answer_start] marks an unanswerable
    question. *)
Record RawExample : Type := {
  raw_context : string;
  raw_question : string;
  raw_answers : list string;
  raw_answer_start : list Z
}.

(** The [transforms] dict.  Its keys are the four string literals
    ['context'], ['question'], ['answers'] and ['ans_pos']; every function
    may have a result type of its own, and [len] is taken of the results of
    the context and answers transforms. *)
Record Transforms (C Q A P : Type) : Type := {
  context : string → C;
  question : string → Q;
  answers : string → A;
  ans_pos : list Z → P
}.
Arguments context {C Q A P} _ _.
Arguments question {C Q A P} _ _.
Arguments answers {C Q A P} _ _.
Arguments ans_pos {C Q A P} _ _.

(** The attributes set by [QuestionAnswerDataset.__init__]. *)
Record QuestionAnswerDataset (V C Q A P : Type) : Type := {
  data : list RawExample;
  vocab : V;
  transforms : Transforms C Q A P
}.
Arguments data {V C Q A P} _.
Arguments vocab {V C Q A P} _.
Arguments transforms {V C Q A P} _.

(** ** QuestionAnswerDataset *)

Section Dataset.
Context {V C Q A P : Type} `{!PyLen C, !PyLen A}.

(** The body of [for idx in range(len(raw_answer_start))], on the two
    lists [_answers] and [_ans_pos] built so far. *)
Definition getitem_body (tr : Transforms C Q A P) (ex : RawExample)
    (acc : list A * list P) (idx : nat) : Result (list A * list P) :=
  ans ←? getitem (raw_answers ex) (Z.of_nat idx);
  let _answers := acc.1 ++ [answers tr ans] in
  ans_start_idx ←? getitem (raw_answer_start ex) (Z.of_nat idx);
  if bool_decide (ans_start_idx = -1) then
    OK (_answers, acc.2 ++ [ans_pos tr [-1; -1]])
  else
    let ans_start_token_idx :=
      Z.of_nat (py_len (context tr (str_slice_to (raw_context ex) ans_start_idx))) in
    ans' ←? getitem (raw_answers ex) (Z.of_nat idx);
    let ans_end_token_idx :=
      ans_start_token_idx + Z.of_nat (py_len (answers tr ans')) - 1 in
    OK (_answers, acc.2 ++ [ans_pos tr [ans_start_token_idx; ans_end_token_idx]]).

(** The span that the body appends for an answer [ans] with offset [k];
    the lemmas on the loop are stated with it. *)
Definition span_for (tr : Transforms C Q A P) (ex : RawExample)
    (k : Z) (ans : string) : P :=
  if bool_decide (k = -1) then ans_pos tr [-1; -1]
  else
    ans_pos tr
      [Z.of_nat (py_len (context tr (str_slice_to (raw_context ex) k)));
       Z.of_nat (py_len (context tr (str_slice_to (raw_context ex) k)))
       + Z.of_nat (py_len (answers tr ans)) - 1].

Fixpoint getitem_loop (tr : Transforms C Q A P) (ex : RawExample)
    (idxs : list nat) (acc : list A * list P) : Result (list A * list P) :=
  match idxs with
  | [] => OK acc
  | idx :: idxs' =>
      acc' ←? getitem_body tr ex acc idx;
      getitem_loop tr ex idxs' acc'
  end.

Definition __getitem__ (self : QuestionAnswerDataset V C Q A P) (i : Z)
    : Result (C * Q * list A * list P) :=
  ex ←? getitem (data self) i;
  let _context := context (transforms self) (raw_context ex) in
  let _question := question (transforms self) (raw_question ex) in
  r ←? getitem_loop (transforms self) ex
         (seq 0 (length (raw_answer_start ex))) ([], []);
  OK (_context, _question, r.1, r.2).

Definition __len__ (self : QuestionAnswerDataset V C Q A P) : nat :=
  length (data self).

Definition get_vocab (self : QuestionAnswerDataset V C Q A P) : V :=
  vocab self.

End Dataset.

(** ** Tensors and the functional transforms *)

(** Element types of a tensor; [torch_long] is the 64-bit signed one. *)
Inductive dtype : Type :=
| torch_int
| torch_long.

Definition dtype_bits (d : dtype) : Z :=
  match d with
  | torch_int => 32
  | torch_long => 64
  end.

(** A one-dimensional integer tensor. *)
Record Tensor : Type := {
  tensor_dtype : dtype;
  tolist : list Z
}.

#[export] Instance Tensor_PyLen : PyLen Tensor := λ t, length (tolist t).

(** Modelled from the spec: [totensor] of torchtext.experimental.functional,
    which is not part of this file.  It converts an ordered sequence of
    integers into a tensor of the given element type; the values the factory
    hands to it are token indices, lengths and the [-1] sentinel. *)
Definition totensor (d : dtype) (ids_list : list Z) : Tensor :=
  {| tensor_dtype := d; tolist := ids_list |}.

(** Modelled from the spec: [sequential_transforms] of
    torchtext.experimental.functional, the composition of its arguments from
    left to right; the source calls it with one and with three functions. *)
Definition sequential_transforms1 {X Y : Type} (f : X → Y) : X → Y :=
  λ txt_input, f txt_input.

Definition sequential_transforms3 {X Y Z' W : Type}
    (f : X → Y) (g : Y → Z') (h : Z' → W) : X → W :=
  λ txt_input, h (g (f txt_input)).

(** How the split argument was given: one name, or a tuple of names. *)
Inductive SplitArg : Type :=
| SplitStr (name : string)
| SplitTuple (names : list string).

(** What the factory returns: one dataset, or a tuple of datasets. *)
Inductive Wrapped (D : Type) : Type :=
| Single (d : D)
| Tuple (ds : list D).
Arguments Single {D} d.
Arguments Tuple {D} ds.

(** The names requested by a split argument. *)
Definition requested (split : SplitArg) : list string :=
  match split with
  | SplitStr name => [name]
  | SplitTuple names => names
  end.

(** Modelled from the spec: [_check_default_set] of
    torchtext.data.datasets_utils.  A single name is taken as a tuple of one;
    a name outside [target_select] is a usage error ([TypeError]). *)
Definition _check_default_set (split : SplitArg) (target_select : list string)
    (dataset_name : string) : Result (list string) :=
  let split := requested split in
  if forallb (λ name, bool_decide (name ∈ target_select)) split
  then OK split
  else Err TypeError.

(** Modelled from the spec: [_wrap_datasets] of
    torchtext.data.datasets_utils.  The result mirrors the shape of the split
    argument: for a single name the one dataset itself, not a tuple of one. *)
Definition _wrap_datasets {D : Type} (datasets : list D) (split : SplitArg)
    : Result (Wrapped D) :=
  match split with
  | SplitStr _ =>
      match datasets with
      | [d] => OK (Single d)
      | _ => Err ValueError
      end
  | SplitTuple _ => OK (Tuple datasets)
  end.

(** ** The factory *)

Definition Tokenizer : Type := string → list string.

Section Factory.
(** The collaborators of the factory, none of them defined in this file:
    the vocabulary type with its lookup [vocab[tok]], the tokenizer
    [get_tokenizer('basic_english')], [build_vocab_from_iterator], and the
    raw loaders [raw.DATASETS[dataset_name](root=root, split=split)]. *)
Context {V : Type}.
Variable stoi : V → string → Z.
Variable basic_english : Tokenizer.
Variable build_vocab_from_iterator : list (list string) → nat → V.
Variable raw_DATASETS : string → string → list string → list (list RawExample).

(** Modelled from the spec: [vocab_func] of
    torchtext.experimental.functional, the index lookup of every token. *)
Definition vocab_func (vocab : V) (tok_iter : list string) : list Z :=
  (λ tok, stoi vocab tok) <$> tok_iter.

Definition Dataset : Type := QuestionAnswerDataset V Tensor Tensor Tensor Tensor.

(** The generator [apply_transform] local to [_setup_datasets]: one token
    list for every example of [data]. *)
Definition apply_transform (text_transform : Tokenizer)
    (data : list RawExample) : list (list string) :=
  (λ ex,
     let tok_ans :=
       foldl (λ tok_ans item, tok_ans ++ text_transform item) [] (raw_answers ex) in
     (text_transform (raw_context ex) ++ text_transform (raw_question ex))
       ++ tok_ans) <$> data.

(** The dict comprehension over [zip(split, raw_datasets)]: a later entry
    with the same name replaces an earlier one. *)
Definition make_raw_data (split : list string)
    (raw_datasets : list (list RawExample)) : gmap string (list RawExample) :=
  foldl (λ d kv, <[kv.1 := kv.2]> d) ∅ (zip split raw_datasets).

(** The transform set of lines 86 to 88. *)
Definition make_transforms (text_transform : Tokenizer) (vocab : V)
    : Transforms Tensor Tensor Tensor Tensor :=
  let text_transform :=
    sequential_transforms3 text_transform (vocab_func vocab) (totensor torch_long) in
  {| context := text_transform;
     question := text_transform;
     answers := text_transform;
     ans_pos := totensor torch_long |}.

(** [_setup_datasets]; the calls of the logger are left out. *)
Definition _setup_datasets (dataset_name root : string) (vocab : option V)
    (tokenizer : option Tokenizer) (split_ : SplitArg)
    : Result (Wrapped Dataset) :=
  let tokenizer := default basic_english tokenizer in
  let text_transform := sequential_transforms1 tokenizer in
  split ←? _check_default_set split_ ["train"; "dev"] dataset_name;
  let raw_datasets := raw_DATASETS dataset_name root split in
  let raw_data := make_raw_data split raw_datasets in
  vocab ←? match vocab with
           | Some vocab => OK vocab
           | None =>
               if negb (bool_decide ("train" ∈ split)) then Err TypeError
               else
                 train ←? dict_get raw_data "train";
                 OK (build_vocab_from_iterator
                       (apply_transform text_transform train) (length train))
           end;
  let transforms := make_transforms text_transform vocab in
  datasets ←? mapM (λ item,
                      d ←? dict_get raw_data item;
                      OK {| data := d; vocab := vocab; transforms := transforms |})
                split;
  _wrap_datasets datasets split_.

(** The keyword arguments of the public functions: [None] stands for an
    argument left out of the call, which then takes its default. *)
Definition SQuAD1 (root : option string) (vocab : option (option V))
    (tokenizer : option (option Tokenizer)) (split : option SplitArg)
    : Result (Wrapped Dataset) :=
  _setup_datasets "SQuAD1"
    (default ".data" root) (default None vocab) (default None tokenizer)
    (default (SplitTuple ["train"; "dev"]) split).

Definition SQuAD2 (root : option string) (vocab : option (option V))
    (tokenizer : option (option Tokenizer)) (split : option SplitArg)
    : Result (Wrapped Dataset) :=
  _setup_datasets "SQuAD2"
    (default ".data" root) (default None vocab) (default None tokenizer)
    (default (SplitTuple ["train"; "dev"]) split).

(** The datasets of a returned value, as a list. *)
Definition datasets_of (w : Wrapped Dataset) : list Dataset :=
  match w with
  | Single d => [d]
  | Tuple ds => ds
  end.

End Factory.

(** ** Fixtures for the concrete scenarios *)

Module Fixture.

Definition is_space (c : ascii) : bool :=
  match Ascii.N_of_ascii c with
  | 9%N | 10%N | 11%N | 12%N | 13%N | 32%N => true
  | _ => false
  end.

(** [str.split()]: the maximal runs of characters that are not white
    space. *)
Fixpoint split_from (cur : string) (s : string) : list string :=
  match s with
  | EmptyString => if String.eqb cur "" then [] else [cur]
  | String c s' =>
      if is_space c then
        if String.eqb cur "" then split_from "" s'
        else cur :: split_from "" s'
      else split_from (cur +:+ String c "") s'
  end.

Definition whitespace_tokenizer : Tokenizer := split_from "".

(** A vocabulary given by its list of tokens; a token that is not listed
    has the index 0 of the unknown token. *)
Fixpoint index_from (n : Z) (itos : list string) (tok : string) : Z :=
  match itos with
  | [] => 0
  | t :: itos' => if String.eqb t tok then n else index_from (n + 1) itos' tok
  end.

Definition list_stoi (itos : list string) (tok : string) : Z :=
  index_from 0 itos tok.

(** A builder that lists the distinct tokens of the stream after the
    unknown token. *)
Definition build_in_order (stream : list (list string)) (num_lines : nat)
    : list string :=
  "<unk>" :: remove_dups (concat stream).

Definition cat_example : RawExample :=
  {| raw_context := "A cat sat.";
     raw_question := "What sat?";
     raw_answers := ["cat"];
     raw_answer_start := [2] |}.

Definition sat_example : RawExample :=
  {| raw_context := "A cat sat.";
     raw_question := "What sat?";
     raw_answers := ["sat"];
     raw_answer_start := [6] |}.

Definition empty_answer_example : RawExample :=
  {| raw_context := "A cat sat.";
     raw_question := "What sat?";
     raw_answers := [""];
     raw_answer_start := [2] |}.

Definition no_answer_example : RawExample :=
  {| raw_context := "A cat sat.";
     raw_question := "Who ran?";
     raw_answers := [""];
     raw_answer_start := [-1] |}.

Definition two_answers_example : RawExample :=
  {| raw_context := "A cat sat.";
     raw_question := "What sat?";
     raw_answers := ["cat"; "A cat"];
     raw_answer_start := [2] |}.

Definition far_offset_example : RawExample :=
  {| raw_context := "A cat sat.";
     raw_question := "What sat?";
     raw_answers := ["cat"];
     raw_answer_start := [50] |}.

Definition negative_offset_example : RawExample :=
  {| raw_context := "A cat sat.";
     raw_question := "What sat?";
     raw_answers := ["sat."];
     raw_answer_start := [-4] |}.

Definition itos : list string := ["<unk>"; "A"; "cat"; "sat."; "sat"; "What"; "sat?"].

Definition dataset_of (exs : list RawExample) : Dataset :=
  {| data := exs;
     vocab := itos;
     transforms := make_transforms list_stoi whitespace_tokenizer itos |}.

(** A raw loader with two examples in the train split and one in the dev
    split; the context of the dev example records the root it was loaded
    from. *)
Definition loader (dataset_name root : string) (split : list string)
    : list (list RawExample) :=
  (λ name, if String.eqb name "train" then [cat_example; no_answer_example]
           else [ {| raw_context := root; raw_question := "Where?";
                     raw_answers := [""]; raw_answer_start := [-1] |} ])
    <$> split.

(** A raw loader that yields the train split only, whatever is requested. *)
Definition short_loader (dataset_name root : string) (split : list string)
    : list (list RawExample) :=
  [[cat_example]].

(** A raw loader whose lists record the position they were loaded at. *)
Definition numbered_loader (dataset_name root : string) (split : list string)
    : list (list RawExample) :=
  imap (λ n name, replicate n cat_example) split.

End Fixture.

(** * Properties *)

(** ** Sequence access *)

Section Sequences.
Context {A : Type}.
Implicit Types (l : list A) (i : Z).

Lemma getitem_nat l (n : nat) :
  getitem l (Z.of_nat n) =
  match l !! n with Some a => OK a | None => Err IndexError end.
Proof.
  unfold getitem, norm_index.
  destruct (Z.ltb_spec (Z.of_nat n) 0) as [Hn|Hn]; [lia|].
  destruct (Z.ltb_spec (Z.of_nat n) 0); [lia|].
  by rewrite Nat2Z.id.
Qed.

Lemma getitem_lookup l (n : nat) a :
  l !! n = Some a → getitem l (Z.of_nat n) = OK a.
Proof. intros H. by rewrite getitem_nat, H. Qed.

Lemma getitem_beyond l i :
  Z.of_nat (length l) ≤ i → getitem l i = Err IndexError.
Proof.
  intros Hi. unfold getitem, norm_index.
  destruct (Z.ltb_spec i 0); [lia|].
  destruct (Z.ltb_spec i 0); [lia|].
  rewrite lookup_ge_None_2; [done|lia].
Qed.

Lemma getitem_below l i :
  i < - Z.of_nat (length l) → getitem l i = Err IndexError.
Proof.
  intros Hi. unfold getitem, norm_index.
  destruct (Z.ltb_spec i 0); [|lia].
  destruct (Z.ltb_spec (i + Z.of_nat (length l)) 0); [done|lia].
Qed.

Lemma getitem_negative l i :
  - Z.of_nat (length l) ≤ i < 0 →
  getitem l i = getitem l (i + Z.of_nat (length l)).
Proof.
  intros Hi. unfold getitem, norm_index.
  destruct (Z.ltb_spec i 0); [|lia].
  destruct (Z.ltb_spec (i + Z.of_nat (length l)) 0); [lia|].
  destruct (Z.ltb_spec (i + Z.of_nat (length l)) 0); [lia|done].
Qed.

Lemma getitem_only_IndexError l i e : getitem l i = Err e → e = IndexError.
Proof.
  unfold getitem. destruct (_ <? 0); [congruence|].
  destruct (l !! _); congruence.
Qed.

Lemma slice_nonneg l (lo hi : nat) :
  slice l (Z.of_nat lo) (Z.of_nat hi) =
  take (Nat.min hi (length l) - Nat.min lo (length l))
       (drop (Nat.min lo (length l)) l).
Proof.
  unfold slice, clamp_bound.
  destruct (Z.ltb_spec (Z.of_nat lo) 0); [lia|].
  destruct (Z.ltb_spec (Z.of_nat hi) 0); [lia|].
  by rewrite !Nat2Z.id.
Qed.

(** The slice [l[n : n + len(mid)]] of [pre ++ mid ++ post], where [n] is
    the length of [pre], is [mid]. *)
Lemma slice_middle (pre mid post : list A) :
  slice (pre ++ mid ++ post) (Z.of_nat (length pre))
        (Z.of_nat (length pre + length mid)) = mid.
Proof.
  rewrite slice_nonneg. rewrite !length_app.
  replace (Nat.min (length pre) _) with (length pre) by lia.
  replace (Nat.min (length pre + length mid) _ - length pre)%nat
    with (length mid) by lia.
  rewrite drop_app_length. by rewrite take_app_length.
Qed.

End Sequences.

(** ** The loop of [__getitem__] *)

Section Loop.
Context {V C Q A P : Type} `{!PyLen C, !PyLen A}.
Variable tr : Transforms C Q A P.
Variable ex : RawExample.

Lemma getitem_body_lookup acc idx ans k :
  raw_answers ex !! idx = Some ans →
  raw_answer_start ex !! idx = Some k →
  getitem_body tr ex acc idx =
  OK (acc.1 ++ [answers tr ans], acc.2 ++ [span_for tr ex k ans]).
Proof.
  intros Ha Hk. unfold getitem_body.
  rewrite !(getitem_lookup _ _ _ Ha), (getitem_lookup _ _ _ Hk). simpl.
  unfold span_for. by destruct (bool_decide (k = -1)).
Qed.

Lemma getitem_body_inv acc idx r :
  getitem_body tr ex acc idx = OK r →
  ∃ ans k, raw_answers ex !! idx = Some ans ∧
           raw_answer_start ex !! idx = Some k ∧
           r = (acc.1 ++ [answers tr ans], acc.2 ++ [span_for tr ex k ans]).
Proof.
  intros H. unfold getitem_body in H. rewrite !getitem_nat in H.
  destruct (raw_answers ex !! idx) as [ans|] eqn:Ha; [|done].
  destruct (raw_answer_start ex !! idx) as [k|] eqn:Hk; [|done].
  exists ans, k. simpl in H. unfold span_for.
  destruct (bool_decide (k = -1)); by simplify_eq.
Qed.

Lemma getitem_body_short acc idx :
  raw_answers ex !! idx = None →
  getitem_body tr ex acc idx = Err IndexError.
Proof. intros Ha. unfold getitem_body. by rewrite getitem_nat, Ha. Qed.

(** A run of the loop over [s, s+1, .., s+n-1] that returns has appended
    one encoded answer and one span for every index, in order. *)
Lemma getitem_loop_inv n : ∀ s acc r,
  getitem_loop tr ex (seq s n) acc = OK r →
  ∃ a p, r = (acc.1 ++ a, acc.2 ++ p) ∧
         length a = n ∧ length p = n ∧
         ∀ j, (j < n)%nat →
           ∃ ans k, raw_answers ex !! (s + j)%nat = Some ans ∧
                    raw_answer_start ex !! (s + j)%nat = Some k ∧
                    a !! j = Some (answers tr ans) ∧
                    p !! j = Some (span_for tr ex k ans).
Proof.
  induction n as [|n IH]; intros s acc r H; simpl in H.
  - exists [], []. rewrite !app_nil_r. injection H as <-.
    split; [by destruct acc|]. repeat split; intros; lia.
  - destruct (getitem_body tr ex acc s) as [acc'|] eqn:Hb; [|done].
    simpl in H.
    apply getitem_body_inv in Hb as (ans & k & Ha & Hk & ->).
    apply IH in H as (a & p & -> & La & Lp & Hj). simpl.
    exists (answers tr ans :: a), (span_for tr ex k ans :: p).
    rewrite <- !app_assoc. simpl.
    split; [done|]. split; [lia|]. split; [lia|].
    intros [|j] Hlt.
    + rewrite Nat.add_0_r. exists ans, k. done.
    + destruct (Hj j ltac:(lia)) as (ans' & k' & ? & ? & ? & ?).
      exists ans', k'. by rewrite <- Nat.add_succ_comm.
Qed.

(** The loop returns when every index it visits is an index of both
    lists. *)
Lemma getitem_loop_returns n : ∀ s acc,
  (s + n ≤ length (raw_answer_start ex))%nat →
  (s + n ≤ length (raw_answers ex))%nat →
  ∃ r, getitem_loop tr ex (seq s n) acc = OK r.
Proof.
  induction n as [|n IH]; intros s acc H1 H2; simpl.
  - by eexists.
  - destruct (lookup_lt_is_Some_2 (raw_answers ex) s) as [ans Ha]; [lia|].
    destruct (lookup_lt_is_Some_2 (raw_answer_start ex) s) as [k Hk]; [lia|].
    rewrite (getitem_body_lookup acc s ans k Ha Hk). simpl.
    apply IH; lia.
Qed.

(** The loop raises [IndexError] when [raw_answers] is the shorter list. *)
Lemma getitem_loop_short n : ∀ s acc,
  (s ≤ length (raw_answers ex) < s + n)%nat →
  (s + n ≤ length (raw_answer_start ex))%nat →
  getitem_loop tr ex (seq s n) acc = Err IndexError.
Proof.
  induction n as [|n IH]; intros s acc H1 H2; simpl; [lia|].
  destruct (decide (s = length (raw_answers ex))) as [->|Hne].
  - rewrite getitem_body_short; [done|]. by apply lookup_ge_None_2.
  - destruct (lookup_lt_is_Some_2 (raw_answers ex) s) as [ans Ha]; [lia|].
    destruct (lookup_lt_is_Some_2 (raw_answer_start ex) s) as [k Hk]; [lia|].
    rewrite (getitem_body_lookup acc s ans k Ha Hk). simpl.
    apply IH; lia.
Qed.

End Loop.

(** ** [__getitem__] *)

Section Getitem.
Context {V C Q A P : Type} `{!PyLen C, !PyLen A}.
Implicit Types (ds : QuestionAnswerDataset V C Q A P) (ex : RawExample).

(** What a returned value of [get(i)] consists of. *)
Lemma getitem_inv ds i ex r :
  getitem (data ds) i = OK ex →
  __getitem__ ds i = OK r →
  r.1.1.1 = context (transforms ds) (raw_context ex) ∧
  r.1.1.2 = question (transforms ds) (raw_question ex) ∧
  length r.1.2 = length (raw_answer_start ex) ∧
  length r.2 = length (raw_answer_start ex) ∧
  ∀ j k, raw_answer_start ex !! j = Some k →
    ∃ ans, raw_answers ex !! j = Some ans ∧
           r.1.2 !! j = Some (answers (transforms ds) ans) ∧
           r.2 !! j = Some (span_for (transforms ds) ex k ans).
Proof.
  intros Hex H. unfold __getitem__ in H. rewrite Hex in H. simpl in H.
  destruct (getitem_loop _ _ _ _) as [r'|] eqn:Hl; [|done].
  simpl in H. simplify_eq. simpl.
  apply getitem_loop_inv in Hl as (a & p & -> & La & Lp & Hj). simpl.
  repeat split; try done.
  intros j k Hk.
  destruct (Hj j) as (ans & k' & Ha & Hk' & ? & ?).
  { by apply lookup_lt_Some in Hk. }
  simpl in *. simplify_eq. by exists ans.
Qed.

(** [get(i)] returns for a valid index when no answer is missing. *)
Lemma getitem_returns ds i ex :
  getitem (data ds) i = OK ex →
  (length (raw_answer_start ex) ≤ length (raw_answers ex))%nat →
  ∃ r, __getitem__ ds i = OK r.
Proof.
  intros Hex Hlen. unfold __getitem__. rewrite Hex. simpl.
  destruct (getitem_loop_returns (transforms ds) ex
              (length (raw_answer_start ex)) 0 ([], [])) as [r Hr]; [lia..|].
  rewrite Hr. by eexists.
Qed.

(** [get(i)] raises [IndexError] when an answer is missing. *)
Lemma getitem_missing_answer ds i ex :
  getitem (data ds) i = OK ex →
  (length (raw_answers ex) < length (raw_answer_start ex))%nat →
  __getitem__ ds i = Err IndexError.
Proof.
  intros Hex Hlen. unfold __getitem__. rewrite Hex. simpl.
  rewrite getitem_loop_short; [done|lia..].
Qed.

End Getitem.

(** ** The claims on [QuestionAnswerDataset] *)

(** C1: for every dataset, every valid index [i] and every answer [j] whose
    offset [k = answer_start[j]] is not [-1], the [j]-th span that [get(i)]
    returns is the transform ['ans_pos'] of [[start, end]], where [start] is
    the length of the context transform of the prefix [context[:k]] and
    [end] is [start] plus the length of the answers transform of
    [answers[j]], minus one.  [get(i)] does return when [answers] is not
    shorter than [answer_start].  In particular, with transforms that yield
    one element for every token of a white space tokenizer, the context
    "A cat sat." with the answer "cat" at offset 2 has the span [[1, 1]]. *)
Theorem C1_span_from_prefix_token_count :
  (∀ (V C Q A P : Type) (HC : PyLen C) (HA : PyLen A)
     (ds : QuestionAnswerDataset V C Q A P) (i : Z) (ex : RawExample)
     (j : nat) (k : Z),
     getitem (data ds) i = OK ex →
     raw_answer_start ex !! j = Some k →
     k ≠ -1 →
     ((length (raw_answer_start ex) ≤ length (raw_answers ex))%nat →
      ∃ r, __getitem__ ds i = OK r)
     ∧
     (∀ r, __getitem__ ds i = OK r →
        ∃ ans,
          raw_answers ex !! j = Some ans ∧
          let start :=
            Z.of_nat (py_len (context (transforms ds)
                                (str_slice_to (raw_context ex) k))) in
          let end_ :=
            start + Z.of_nat (py_len (answers (transforms ds) ans)) - 1 in
          r.2 !! j = Some (ans_pos (transforms ds) [start; end_])))
  ∧
  (∀ (V C Q A P : Type) (HC : PyLen C) (HA : PyLen A)
     (v : V) (tr : Transforms C Q A P) (q : string),
     (∀ s, py_len (context tr s) = length (Fixture.whitespace_tokenizer s)) →
     (∀ s, py_len (answers tr s) = length (Fixture.whitespace_tokenizer s)) →
     ∃ r,
       __getitem__
         {| data := [ {| raw_context := "A cat sat."; raw_question := q;
                         raw_answers := ["cat"]; raw_answer_start := [2] |} ];
            vocab := v;
            transforms := tr |}
         0 = OK r ∧
       r.2 = [ans_pos tr [1; 1]]).
Proof.
  split.
  - intros V C Q A P HC HA ds i ex j k Hex Hk Hne. split.
    + intros Hlen. by eapply getitem_returns.
    + intros r Hr.
      destruct (getitem_inv ds i ex r Hex Hr) as (_ & _ & _ & _ & Hj).
      destruct (Hj j k Hk) as (ans & Ha & _ & Hp).
      exists ans. split; [done|]. simpl.
      rewrite Hp. unfold span_for.
      rewrite bool_decide_eq_false_2; done.
  - intros V C Q A P HC HA v tr q Hc Ha. eexists. split; [reflexivity|].
    simpl. rewrite Hc, Ha. reflexivity.
Qed.

Lemma C1_witness :
  ∃ r,
    __getitem__ (Fixture.dataset_of [Fixture.cat_example]) 0 = OK r ∧
    r.2 !! 0%nat = Some {| tensor_dtype := torch_long; tolist := [1; 1] |}.
Proof.
  destruct (proj1 C1_span_from_prefix_token_count
              _ _ _ _ _ _ _
              (Fixture.dataset_of [Fixture.cat_example]) 0 Fixture.cat_example
              0%nat 2)
    as [Hret Hspan].
  - reflexivity.
  - reflexivity.
  - lia.
  - destruct Hret as [r Hr]; [simpl; lia|].
    exists r. split; [exact Hr|].
    destruct (Hspan r Hr) as (ans & Ha & Hp).
    injection Ha as <-. exact Hp.
Defined.

(** C3: for every dataset, every valid index [i] and every answer [j] whose
    offset is [-1], the [j]-th span that [get(i)] returns is the transform
    ['ans_pos'] of [[-1, -1]], whatever the context, the answer and the
    transforms are.  [get(i)] does return when [answers] is not shorter than
    [answer_start]. *)
Theorem C3_no_answer_span :
  ∀ (V C Q A P : Type) (HC : PyLen C) (HA : PyLen A)
    (ds : QuestionAnswerDataset V C Q A P) (i : Z) (ex : RawExample) (j : nat),
    getitem (data ds) i = OK ex →
    raw_answer_start ex !! j = Some (-1) →
    ((length (raw_answer_start ex) ≤ length (raw_answers ex))%nat →
     ∃ r, __getitem__ ds i = OK r)
    ∧
    (∀ r, __getitem__ ds i = OK r →
          r.2 !! j = Some (ans_pos (transforms ds) [-1; -1])).
Proof.
  intros V C Q A P HC HA ds i ex j Hex Hk. split.
  - intros Hlen. by eapply getitem_returns.
  - intros r Hr.
    destruct (getitem_inv ds i ex r Hex Hr) as (_ & _ & _ & _ & Hj).
    destruct (Hj j (-1) Hk) as (ans & _ & _ & Hp).
    by rewrite Hp.
Qed.

Lemma C3_witness :
  ∃ r, __getitem__ (Fixture.dataset_of [Fixture.no_answer_example]) 0 = OK r ∧
       r.2 !! 0%nat = Some {| tensor_dtype := torch_long; tolist := [-1; -1] |}.
Proof.
  destruct (C3_no_answer_span _ _ _ _ _ _ _
              (Fixture.dataset_of [Fixture.no_answer_example]) 0
              Fixture.no_answer_example 0%nat) as [Hret Hspan].
  - reflexivity.
  - reflexivity.
  - destruct Hret as [r Hr]; [simpl; lia|].
    exists r. split; [exact Hr|]. exact (Hspan r Hr).
Defined.

(** C10: the loop of [get(i)] runs over the indices of [answer_start]: for a
    valid index [i] of an example whose [answers] is at least as long as its
    [answer_start], [get(i)] returns a list of encoded answers and a list of
    spans that both have the length of [answer_start], and their [j]-th
    entries are the encoding of [answers[j]] and the span computed from
    [answer_start[j]] and [answers[j]]. *)
Theorem C10_lists_follow_answer_start :
  ∀ (V C Q A P : Type) (HC : PyLen C) (HA : PyLen A)
    (ds : QuestionAnswerDataset V C Q A P) (i : Z) (ex : RawExample),
    getitem (data ds) i = OK ex →
    (length (raw_answer_start ex) ≤ length (raw_answers ex))%nat →
    ∃ c q a p,
      __getitem__ ds i = OK (c, q, a, p) ∧
      length a = length (raw_answer_start ex) ∧
      length p = length (raw_answer_start ex) ∧
      ∀ (j : nat) (k : Z),
        raw_answer_start ex !! j = Some k →
        ∃ ans,
          raw_answers ex !! j = Some ans ∧
          a !! j = Some (answers (transforms ds) ans) ∧
          (k = -1 → p !! j = Some (ans_pos (transforms ds) [-1; -1])) ∧
          (k ≠ -1 →
           let start :=
             Z.of_nat (py_len (context (transforms ds)
                                 (str_slice_to (raw_context ex) k))) in
           p !! j = Some
             (ans_pos (transforms ds)
                [start;
                 start + Z.of_nat (py_len (answers (transforms ds) ans)) - 1])).
Proof.
  intros V C Q A P HC HA ds i ex Hex Hlen.
  destruct (getitem_returns ds i ex Hex Hlen) as [[[[c q] a] p] Hr].
  destruct (getitem_inv ds i ex _ Hex Hr) as (_ & _ & La & Lp & Hj).
  simpl in *. exists c, q, a, p. repeat split; try done.
  intros j k Hk. destruct (Hj j k Hk) as (ans & Ha & Hea & Hp).
  exists ans. repeat split; try done.
  - intros ->. by rewrite Hp.
  - intros Hne. rewrite Hp. unfold span_for.
    by rewrite bool_decide_eq_false_2.
Qed.

Lemma C10_witness :
  ∃ c q a p,
    __getitem__ (Fixture.dataset_of [Fixture.two_answers_example]) 0
      = OK (c, q, a, p) ∧
    length (raw_answers Fixture.two_answers_example) = 2%nat ∧
    length a = 1%nat ∧ length p = 1%nat.
Proof.
  destruct (C10_lists_follow_answer_start _ _ _ _ _ _ _
              (Fixture.dataset_of [Fixture.two_answers_example]) 0
              Fixture.two_answers_example)
    as (c & q & a & p & Hr & La & Lp & _).
  - reflexivity.
  - simpl. lia.
  - exists c, q, a, p. split; [exact Hr|]. split; [reflexivity|].
    split; [exact La|exact Lp].
Defined.

(** C4, amended: for every dataset constructed from a sequence of raw
    examples, [length()] is the number of raw examples supplied, and [get(i)]
    fails with the [IndexError] of the underlying sequence access for every
    [i >= length()], in particular for [i == length()], and for every
    [i < -length()].  A negative index with [-length() <= i < 0] is not out of
    bounds: [get(i)] is then [get(length() + i)]. *)
Theorem C4_len_and_index_error :
  ∀ (V C Q A P : Type) (HC : PyLen C) (HA : PyLen A)
    (exs : list RawExample) (v : V) (tr : Transforms C Q A P),
    let ds := {| data := exs; vocab := v; transforms := tr |} in
    __len__ ds = length exs ∧
    __getitem__ ds (Z.of_nat (__len__ ds)) = Err IndexError ∧
    (∀ i : Z, Z.of_nat (__len__ ds) ≤ i ∨ i < - Z.of_nat (__len__ ds) →
              __getitem__ ds i = Err IndexError) ∧
    (∀ i : Z, - Z.of_nat (__len__ ds) ≤ i < 0 →
              __getitem__ ds i = __getitem__ ds (i + Z.of_nat (__len__ ds))).
Proof.
  intros V C Q A P HC HA exs v tr ds.
  assert (Hout : ∀ i : Z, Z.of_nat (__len__ ds) ≤ i ∨ i < - Z.of_nat (__len__ ds) →
                          __getitem__ ds i = Err IndexError).
  { intros i [Hi|Hi]; unfold __getitem__, __len__ in *; simpl in *.
    - by rewrite getitem_beyond.
    - by rewrite getitem_below. }
  split; [reflexivity|]. split; [apply Hout; lia|]. split; [exact Hout|].
  intros i Hi. unfold __getitem__, __len__ in *. simpl in *.
  by rewrite getitem_negative.
Qed.

Lemma C4_witness :
  __getitem__ (Fixture.dataset_of [Fixture.cat_example]) 1 = Err IndexError ∧
  __getitem__ (Fixture.dataset_of [Fixture.cat_example]) (-2) = Err IndexError ∧
  __getitem__ (Fixture.dataset_of [Fixture.cat_example]) (-1)
    = __getitem__ (Fixture.dataset_of [Fixture.cat_example]) 0.
Proof.
  destruct (C4_len_and_index_error _ _ _ _ _ _ _
              [Fixture.cat_example] Fixture.itos
              (make_transforms Fixture.list_stoi Fixture.whitespace_tokenizer
                 Fixture.itos))
    as (_ & Hlen & Hout & Hneg).
  split; [exact Hlen|]. split.
  - apply Hout. right. unfold __len__. simpl. lia.
  - apply (Hneg (-1)). unfold __len__. simpl. lia.
Defined.

(** The claim C4 as it was stated fails at the index [-1] of a dataset with
    one example: [-1] is outside [[0, length())], and [get(-1)] returns the
    encoded example. *)
Lemma C4_counterexample :
  let ds := Fixture.dataset_of [Fixture.cat_example] in
  __len__ ds = 1%nat ∧
  __getitem__ ds (-1) =
    OK ({| tensor_dtype := torch_long; tolist := [1; 2; 3] |},
        {| tensor_dtype := torch_long; tolist := [5; 6] |},
        [ {| tensor_dtype := torch_long; tolist := [2] |} ],
        [ {| tensor_dtype := torch_long; tolist := [1; 1] |} ]) ∧
  ¬ (∀ i : Z, ¬ (0 ≤ i < Z.of_nat (__len__ ds)) →
              __getitem__ ds i = Err IndexError).
Proof.
  intros ds. split; [reflexivity|]. split; [reflexivity|].
  intros H.
  assert (Hm : __getitem__ ds (-1) = Err IndexError) by (apply H; lia).
  discriminate Hm.
Qed.

(** ** The steps of the factory *)

Section Steps.
Context {X Y : Type}.

Lemma mapM_inv (f : X → Result Y) (l : list X) (ys : list Y) :
  mapM f l = OK ys → Forall2 (λ x y, f x = OK y) l ys.
Proof.
  revert ys. induction l as [|x l IH]; intros ys H; simpl in H.
  - injection H as <-. constructor.
  - destruct (f x) as [y|] eqn:Hx; [|done]. simpl in H.
    destruct (mapM f l) as [ys'|]; [|done]. simpl in H.
    injection H as <-. constructor; [done|]. by apply IH.
Qed.

Lemma mapM_returns (f : X → Result Y) (l : list X) :
  (∀ x, x ∈ l → ∃ y, f x = OK y) → ∃ ys, mapM f l = OK ys.
Proof.
  induction l as [|x l IH]; intros H; simpl.
  - by eexists.
  - destruct (H x) as [y Hy]; [by left|]. rewrite Hy. simpl.
    destruct IH as [ys Hys]; [intros; apply H; by right|].
    rewrite Hys. by eexists.
Qed.

Lemma mapM_raises (f : X → Result Y) (l : list X) (e : exn) :
  mapM f l = Err e → ∃ x, x ∈ l ∧ f x = Err e.
Proof.
  induction l as [|x l IH]; intros H; simpl in H; [done|].
  destruct (f x) as [y|e'] eqn:Hx; simpl in H.
  - destruct (mapM f l) as [ys|e'']; [done|]. simpl in H.
    destruct IH as (x' & ? & ?); [done|]. exists x'. split; [by right|done].
  - exists x. split; [by left|congruence].
Qed.

End Steps.

Lemma check_default_set_cases (split_ : SplitArg) (target : list string)
    (dataset_name : string) :
  ((∀ s, s ∈ requested split_ → s ∈ target) ∧
   _check_default_set split_ target dataset_name = OK (requested split_))
  ∨
  ((∃ s, s ∈ requested split_ ∧ s ∉ target) ∧
   _check_default_set split_ target dataset_name = Err TypeError).
Proof.
  unfold _check_default_set.
  induction (requested split_) as [|s l IH]; simpl.
  - left. split; [|done]. intros s Hs. by apply not_elem_of_nil in Hs.
  - destruct (bool_decide (s ∈ target)) eqn:Hs; simpl.
    + apply bool_decide_eq_true_1 in Hs.
      destruct IH as [[Hall Hok]|[(s' & Hin & Hout) Herr]].
      * left. destruct (forallb _ l); [|done].
        split; [|done]. intros s' [->|Hin]%elem_of_cons; auto.
      * right. destruct (forallb _ l); [done|].
        split; [|done]. exists s'. split; [by right|done].
    + apply bool_decide_eq_false_1 in Hs.
      right. split; [|done]. exists s. split; [by left|done].
Qed.

Lemma tok_ans_concat (text_transform : Tokenizer) (items : list string)
    (acc : list string) :
  foldl (λ tok_ans item, tok_ans ++ text_transform item) acc items
  = acc ++ concat (text_transform <$> items).
Proof.
  revert acc. induction items as [|item items IH]; intros acc; simpl.
  - by rewrite app_nil_r.
  - by rewrite IH, app_assoc.
Qed.

(** Each list that [apply_transform] yields is the tokenized context, then
    the tokenized question, then the tokens of all answers. *)
Lemma apply_transform_stream (text_transform : Tokenizer)
    (data : list RawExample) :
  apply_transform text_transform data =
  (λ ex, text_transform (raw_context ex)
         ++ text_transform (raw_question ex)
         ++ concat (text_transform <$> raw_answers ex)) <$> data.
Proof.
  unfold apply_transform. apply list_fmap_ext. intros _ ex _. simpl.
  rewrite tok_ans_concat. simpl. by rewrite <- app_assoc.
Qed.

Section RawData.
Implicit Types (split : list string) (raws : list (list RawExample)).

Lemma make_raw_data_list_to_map split raws :
  make_raw_data split raws = list_to_map (reverse (zip split raws)).
Proof.
  unfold make_raw_data.
  induction (zip split raws) as [|kv l IH] using rev_ind; [done|].
  rewrite foldl_app, reverse_app. simpl. by rewrite IH.
Qed.

(** An entry of [raw_data] is one of the loaded lists, at a position of its
    name in [split]. *)
Lemma make_raw_data_origin split raws name raw :
  make_raw_data split raws !! name = Some raw →
  ∃ k : nat, split !! k = Some name ∧ raws !! k = Some raw.
Proof.
  rewrite make_raw_data_list_to_map. intros H.
  apply elem_of_list_to_map_2 in H. rewrite elem_of_reverse in H.
  apply list_elem_of_lookup in H as [k Hk]. exists k.
  apply lookup_zip_with_Some in Hk as (x & y & Heq & ? & ?).
  by simplify_eq.
Qed.

Lemma make_raw_data_is_Some split raws name :
  length split = length raws → name ∈ split →
  is_Some (make_raw_data split raws !! name).
Proof.
  intros Hlen Hin. rewrite make_raw_data_list_to_map.
  apply not_eq_None_Some. intros Hn.
  apply not_elem_of_list_to_map in Hn. apply Hn.
  rewrite fmap_reverse, elem_of_reverse, fst_zip; [done|lia].
Qed.

Lemma make_raw_data_NoDup split raws (k : nat) name raw :
  length split = length raws → NoDup split →
  split !! k = Some name → raws !! k = Some raw →
  make_raw_data split raws !! name = Some raw.
Proof.
  intros Hlen Hnd Hk Hr. rewrite make_raw_data_list_to_map.
  apply elem_of_list_to_map_1.
  - rewrite fmap_reverse, fst_zip by lia. by rewrite reverse_Permutation.
  - rewrite elem_of_reverse. apply list_elem_of_lookup. exists k.
    apply lookup_zip_with_Some. by exists name, raw.
Qed.

End RawData.

(** ** [_setup_datasets] *)

Lemma wrap_datasets_inv {D : Type} (ds : list D) (split_ : SplitArg) (w : Wrapped D) :
  _wrap_datasets ds split_ = OK w →
  match split_ with
  | SplitStr _ => ∃ d, ds = [d] ∧ w = Single d
  | SplitTuple _ => w = Tuple ds
  end.
Proof.
  destruct split_ as [name|names]; simpl.
  - destruct ds as [|d [|d' ds]]; try done. injection 1 as <-. by exists d.
  - by injection 1 as <-.
Qed.

Lemma wrap_datasets_not_TypeError {D : Type} (ds : list D) (split_ : SplitArg) :
  _wrap_datasets ds split_ ≠ Err TypeError.
Proof.
  destruct split_ as [name|names]; simpl; [|done].
  by destruct ds as [|d [|d' ds]].
Qed.

Section FactoryProps.
Context {V : Type}.
Variable stoi : V → string → Z.
Variable basic_english : Tokenizer.
Variable build_vocab_from_iterator : list (list string) → nat → V.
Variable raw_DATASETS : string → string → list string → list (list RawExample).

(** What a returned value of the factory consists of. *)
Lemma setup_datasets_inv dataset_name root vocab0 tokenizer split_ w :
  _setup_datasets stoi basic_english build_vocab_from_iterator raw_DATASETS
    dataset_name root vocab0 tokenizer split_ = OK w →
  (∀ s, s ∈ requested split_ → s ∈ ["train"; "dev"]) ∧
  ∃ (v : V) (ds : list (Dataset (V:=V))),
    match vocab0 with
    | Some v' => v = v'
    | None =>
        "train" ∈ requested split_ ∧
        ∃ train,
          make_raw_data (requested split_)
            (raw_DATASETS dataset_name root (requested split_)) !! "train"
            = Some train ∧
          v = build_vocab_from_iterator
                (apply_transform (default basic_english tokenizer) train)
                (length train)
    end ∧
    Forall2
      (λ item d,
         ∃ raw,
           make_raw_data (requested split_)
             (raw_DATASETS dataset_name root (requested split_)) !! item
             = Some raw ∧
           d = {| data := raw; vocab := v;
                  transforms :=
                    make_transforms stoi (default basic_english tokenizer) v |})
      (requested split_) ds ∧
    _wrap_datasets ds split_ = OK w.
Proof.
  unfold _setup_datasets.
  destruct (check_default_set_cases split_ ["train"; "dev"] dataset_name)
    as [[Hall ->]|[_ ->]]; [|done].
  simpl. intros H. split; [exact Hall|].
  set (raw_data := make_raw_data _ _) in *.
  destruct vocab0 as [v|]; simpl in H.
  - destruct (mapM _ _) as [ds|] eqn:Hm; [|done]. simpl in H.
    exists v, ds. split; [done|]. split; [|done].
    apply mapM_inv in Hm. eapply Forall2_impl; [exact Hm|].
    intros item d Hd. simpl in Hd. unfold dict_get in Hd.
    destruct (raw_data !! item) as [raw|]; [|done].
    simpl in Hd. injection Hd as <-. by exists raw.
  - destruct (bool_decide ("train" ∈ requested split_)) eqn:Ht; [|done].
    apply bool_decide_eq_true_1 in Ht. simpl in H.
    unfold dict_get in H at 1.
    destruct (raw_data !! "train") as [train|] eqn:Htrain; [|done].
    simpl in H.
    destruct (mapM _ _) as [ds|] eqn:Hm; [|done]. simpl in H.
    eexists _, ds. split; [split; [done|]; by exists train|].
    split; [|done].
    apply mapM_inv in Hm. eapply Forall2_impl; [exact Hm|].
    intros item d Hd. simpl in Hd. unfold dict_get in Hd.
    destruct (raw_data !! item) as [raw|]; [|done].
    simpl in Hd. injection Hd as <-. by exists raw.
Qed.

(** The factory returns when the split names are valid, a vocabulary is
    given or can be built, and the raw loader has one list per split. *)
Lemma setup_datasets_returns dataset_name root vocab0 tokenizer split_ :
  (∀ s, s ∈ requested split_ → s ∈ ["train"; "dev"]) →
  (vocab0 = None → "train" ∈ requested split_) →
  length (raw_DATASETS dataset_name root (requested split_))
    = length (requested split_) →
  ∃ w,
    _setup_datasets stoi basic_english build_vocab_from_iterator raw_DATASETS
      dataset_name root vocab0 tokenizer split_ = OK w.
Proof.
  intros Hall Hvocab Hlen. unfold _setup_datasets.
  destruct (check_default_set_cases split_ ["train"; "dev"] dataset_name)
    as [[_ ->]|[(s & Hin & Hout) _]]; [|by destruct Hout; apply Hall].
  simpl. set (raw_data := make_raw_data _ _).
  assert (Hget : ∀ item, item ∈ requested split_ →
                 ∃ raw, dict_get raw_data item = OK raw).
  { intros item Hin. unfold dict_get.
    destruct (make_raw_data_is_Some (requested split_)
                (raw_DATASETS dataset_name root (requested split_)) item)
      as [raw Hraw]; [done..|].
    fold raw_data in Hraw. rewrite Hraw. by eexists. }
  assert (Hwrap : ∀ ds : list (Dataset (V:=V)),
             length ds = length (requested split_) →
             ∃ w, _wrap_datasets ds split_ = OK w).
  { intros ds Hds. destruct split_ as [name|names]; simpl in *.
    - destruct ds as [|d [|d' ds]]; try done. by eexists.
    - by eexists. }
  assert (Hmap : ∀ v : V, ∃ ds,
             mapM (λ item, d ←? dict_get raw_data item;
                           OK {| data := d; vocab := v;
                                 transforms :=
                                   make_transforms stoi
                                     (sequential_transforms1
                                        (default basic_english tokenizer)) v |})
               (requested split_) = OK ds ∧
             length ds = length (requested split_)).
  { intros v.
    destruct (mapM_returns
                (λ item, d ←? dict_get raw_data item;
                         OK {| data := d; vocab := v;
                               transforms :=
                                 make_transforms stoi
                                   (sequential_transforms1
                                      (default basic_english tokenizer)) v |})
                (requested split_)) as [ds Hds].
    { intros item Hin. destruct (Hget item Hin) as [raw ->]. by eexists. }
    exists ds. split; [done|].
    apply mapM_inv, Forall2_length in Hds. done. }
  destruct vocab0 as [v|]; simpl.
  - destruct (Hmap v) as (ds & -> & Hds). simpl. by apply Hwrap.
  - rewrite bool_decide_eq_true_2 by auto. simpl.
    destruct (Hget "train") as [train ->]; [auto|]. simpl.
    destruct (Hmap (build_vocab_from_iterator
                      (apply_transform
                         (sequential_transforms1 (default basic_english tokenizer))
                         train) (length train))) as (ds & -> & Hds).
    simpl. by apply Hwrap.
Qed.

(** The factory raises [TypeError] for an invalid split name, and for a
    request without vocabulary and without the train split; it raises it in
    no other case. *)
Lemma setup_datasets_TypeError dataset_name root vocab0 tokenizer split_ :
  _setup_datasets stoi basic_english build_vocab_from_iterator raw_DATASETS
    dataset_name root vocab0 tokenizer split_ = Err TypeError
  ↔ (∃ s, s ∈ requested split_ ∧ s ∉ ["train"; "dev"])
    ∨ (vocab0 = None ∧ "train" ∉ requested split_).
Proof.
  unfold _setup_datasets.
  destruct (check_default_set_cases split_ ["train"; "dev"] dataset_name)
    as [[Hall ->]|[Hex ->]]; simpl; [|by split; [left|]].
  set (raw_data := make_raw_data _ _).
  assert (Hmap : ∀ v : V,
             (ds ←? mapM (λ item, d ←? dict_get raw_data item;
                           OK {| data := d; vocab := v;
                                 transforms :=
                                   make_transforms stoi
                                     (sequential_transforms1
                                        (default basic_english tokenizer)) v |})
                      (requested split_);
              _wrap_datasets ds split_) ≠ Err TypeError).
  { intros v. destruct (mapM _ _) as [ds|e] eqn:Hm; simpl.
    - apply wrap_datasets_not_TypeError.
    - apply mapM_raises in Hm as (item & _ & Hitem).
      unfold dict_get in Hitem. destruct (raw_data !! item); simpl in Hitem;
        congruence. }
  split.
  - intros H. right. destruct vocab0 as [v|]; simpl in H.
    + by destruct (Hmap v).
    + split; [done|].
      destruct (bool_decide ("train" ∈ requested split_)) eqn:Ht.
      * simpl in H. unfold dict_get in H at 1.
        destruct (raw_data !! "train") as [train|]; simpl in H; [|done].
        by destruct (Hmap (build_vocab_from_iterator
                             (apply_transform
                                (sequential_transforms1
                                   (default basic_english tokenizer)) train)
                             (length train))).
      * by apply bool_decide_eq_false_1 in Ht.
  - intros [(s & Hin & Hout)|[-> Ht]]; [by destruct Hout; apply Hall|].
    by rewrite bool_decide_eq_false_2.
Qed.

End FactoryProps.

(** ** The claims on the factory *)

(** C5: the factory raises a usage error ([TypeError]), and so returns no
    dataset, if and only if some requested split name is not in
    [{"train", "dev"}], or no vocabulary is supplied and "train" is not among
    the requested splits.  This holds for [_setup_datasets] and for both
    public functions, with the defaults of the arguments left out. *)
Theorem C5_usage_error_iff :
  ∀ (V : Type) (stoi : V → string → Z) (basic_english : Tokenizer)
    (build_vocab_from_iterator : list (list string) → nat → V)
    (raw_DATASETS : string → string → list string → list (list RawExample)),
    (∀ dataset_name root vocab0 tokenizer split_,
       _setup_datasets stoi basic_english build_vocab_from_iterator raw_DATASETS
         dataset_name root vocab0 tokenizer split_ = Err TypeError
       ↔ (∃ s, s ∈ requested split_ ∧ s ∉ ["train"; "dev"])
         ∨ (vocab0 = None ∧ "train" ∉ requested split_))
    ∧
    (∀ root vocab0 tokenizer split_,
       SQuAD1 stoi basic_english build_vocab_from_iterator raw_DATASETS
         root vocab0 tokenizer split_ = Err TypeError
       ↔ (∃ s, s ∈ requested (default (SplitTuple ["train"; "dev"]) split_)
               ∧ s ∉ ["train"; "dev"])
         ∨ (default None vocab0 = None
            ∧ "train" ∉ requested (default (SplitTuple ["train"; "dev"]) split_)))
    ∧
    (∀ root vocab0 tokenizer split_,
       SQuAD2 stoi basic_english build_vocab_from_iterator raw_DATASETS
         root vocab0 tokenizer split_ = Err TypeError
       ↔ (∃ s, s ∈ requested (default (SplitTuple ["train"; "dev"]) split_)
               ∧ s ∉ ["train"; "dev"])
         ∨ (default None vocab0 = None
            ∧ "train" ∉ requested (default (SplitTuple ["train"; "dev"]) split_))).
Proof.
  intros V stoi basic_english build_vocab_from_iterator raw_DATASETS.
  split; [|split]; intros; apply setup_datasets_TypeError.
Qed.

Lemma C5_witness :
  SQuAD1 Fixture.list_stoi Fixture.whitespace_tokenizer Fixture.build_in_order
    Fixture.loader None None None (Some (SplitTuple ["dev"])) = Err TypeError
  ∧
  SQuAD2 Fixture.list_stoi Fixture.whitespace_tokenizer Fixture.build_in_order
    Fixture.loader None (Some (Some Fixture.itos)) None (Some (SplitStr "test"))
    = Err TypeError.
Proof.
  destruct (C5_usage_error_iff (list string) Fixture.list_stoi
              Fixture.whitespace_tokenizer Fixture.build_in_order Fixture.loader)
    as (_ & H1 & H2).
  split.
  - apply H1. right. split; [reflexivity|]. simpl.
    intros H. apply list_elem_of_singleton in H. discriminate H.
  - apply H2. left. exists "test". simpl. split.
    + apply list_elem_of_singleton. reflexivity.
    + intros H. apply elem_of_cons in H as [H|H]; [discriminate H|].
      apply list_elem_of_singleton in H. discriminate H.
Defined.

(** C6: the returned value mirrors the shape of the split argument.  For a
    tuple of names the factory returns a tuple with one dataset for every
    requested name, in the order of the request: the [k]-th dataset holds
    the raw data loaded for the [k]-th name.  For a single name given as a
    string it returns the one dataset itself.  The request is one the factory
    accepts: valid names, a vocabulary or the train split, and a raw loader
    that yields one list per requested split. *)
Theorem C6_return_shape_mirrors_split :
  ∀ (V : Type) (stoi : V → string → Z) (basic_english : Tokenizer)
    (build_vocab_from_iterator : list (list string) → nat → V)
    (raw_DATASETS : string → string → list string → list (list RawExample))
    (dataset_name root : string) (vocab0 : option V)
    (tokenizer : option Tokenizer) (split_ : SplitArg),
    (∀ s, s ∈ requested split_ → s ∈ ["train"; "dev"]) →
    (vocab0 = None → "train" ∈ requested split_) →
    length (raw_DATASETS dataset_name root (requested split_))
      = length (requested split_) →
    match split_ with
    | SplitTuple names =>
        ∃ ds,
          _setup_datasets stoi basic_english build_vocab_from_iterator
            raw_DATASETS dataset_name root vocab0 tokenizer split_
            = OK (Tuple ds) ∧
          length ds = length names ∧
          ∀ (k : nat) (item : string),
            names !! k = Some item →
            ∃ d, ds !! k = Some d ∧
                 make_raw_data names (raw_DATASETS dataset_name root names)
                   !! item = Some (data d) ∧
                 (NoDup names →
                  raw_DATASETS dataset_name root names !! k = Some (data d))
    | SplitStr item =>
        ∃ d,
          _setup_datasets stoi basic_english build_vocab_from_iterator
            raw_DATASETS dataset_name root vocab0 tokenizer split_
            = OK (Single d) ∧
          raw_DATASETS dataset_name root [item] = [data d]
    end.
Proof.
  intros V stoi basic_english build_vocab_from_iterator raw_DATASETS
    dataset_name root vocab0 tokenizer split_ Hall Hvocab Hlen.
  destruct (setup_datasets_returns stoi basic_english build_vocab_from_iterator
              raw_DATASETS dataset_name root vocab0 tokenizer split_
              Hall Hvocab Hlen) as [w Hw].
  destruct (setup_datasets_inv _ _ _ _ _ _ _ _ _ _ Hw)
    as (_ & v & ds & _ & Hds & Hwrap).
  apply wrap_datasets_inv in Hwrap.
  destruct split_ as [item|names]; simpl in *.
  - destruct Hwrap as (d & -> & ->). exists d. split; [done|].
    apply Forall2_cons_1 in Hds as [(raw & Hraw & ->) _]. simpl.
    apply make_raw_data_origin in Hraw as (k & Hk & Hr).
    destruct k as [|k]; [|done].
    destruct (raw_DATASETS dataset_name root [item]) as [|r [|r' rs]];
      simpl in *; try done. by simplify_eq.
  - subst w. exists ds. split; [done|].
    split; [symmetry; by eapply Forall2_length|].
    intros k item Hk.
    destruct (Forall2_lookup_l _ _ _ _ _ Hds Hk) as (d & Hd & raw & Hraw & ->).
    exists {| data := raw; vocab := v;
              transforms :=
                make_transforms stoi (default basic_english tokenizer) v |}.
    split; [done|]. split; [done|]. simpl. intros Hnd.
    destruct (lookup_lt_is_Some_2
                (raw_DATASETS dataset_name root names) k) as [raw' Hraw'].
    { rewrite Hlen. by eapply lookup_lt_Some. }
    rewrite Hraw'. f_equal.
    pose proof (make_raw_data_NoDup names _ k item raw'
                  (eq_sym Hlen) Hnd Hk Hraw') as Heq.
    congruence.
Qed.

Lemma C6_witness :
  (∃ ds,
     SQuAD1 Fixture.list_stoi Fixture.whitespace_tokenizer
       Fixture.build_in_order Fixture.loader None None None None
       = OK (Tuple ds) ∧
     length ds = 2%nat ∧
     ∃ d, ds !! 0%nat = Some d ∧
          Some (data d) = Some [Fixture.cat_example; Fixture.no_answer_example])
  ∧
  (∃ d,
     SQuAD1 Fixture.list_stoi Fixture.whitespace_tokenizer
       Fixture.build_in_order Fixture.loader None None None
       (Some (SplitStr "train"))
       = OK (Single d) ∧
     [[Fixture.cat_example; Fixture.no_answer_example]] = [data d]).
Proof.
  split.
  - destruct (C6_return_shape_mirrors_split (list string) Fixture.list_stoi
                Fixture.whitespace_tokenizer Fixture.build_in_order
                Fixture.loader "SQuAD1" ".data" None None
                (SplitTuple ["train"; "dev"]))
      as (ds & Hds & Hlen & Hk).
    + intros s Hs. exact Hs.
    + intros _. apply elem_of_cons. left. reflexivity.
    + reflexivity.
    + exists ds. split; [exact Hds|]. split; [exact Hlen|].
      destruct (Hk 0%nat "train" eq_refl) as (d & Hd & _ & Hnd).
      exists d. split; [exact Hd|]. symmetry. apply Hnd.
      apply NoDup_cons. split.
      * intros H. apply list_elem_of_singleton in H. discriminate H.
      * apply NoDup_singleton.
  - apply (C6_return_shape_mirrors_split (list string) Fixture.list_stoi
             Fixture.whitespace_tokenizer Fixture.build_in_order
             Fixture.loader "SQuAD1" ".data" None None (SplitStr "train")).
    + intros s Hs. apply list_elem_of_singleton in Hs. rewrite Hs.
      apply elem_of_cons. left. reflexivity.
    + intros _. apply list_elem_of_singleton. reflexivity.
    + reflexivity.
Defined.

(** A returned value holds one dataset for every requested name. *)
Lemma setup_datasets_length {V : Type} (stoi : V → string → Z)
    (basic_english : Tokenizer)
    (build_vocab_from_iterator : list (list string) → nat → V)
    (raw_DATASETS : string → string → list string → list (list RawExample))
    dataset_name root vocab0 tokenizer split_ w :
  _setup_datasets stoi basic_english build_vocab_from_iterator raw_DATASETS
    dataset_name root vocab0 tokenizer split_ = OK w →
  length (datasets_of w) = length (requested split_).
Proof.
  intros Hw.
  destruct (setup_datasets_inv _ _ _ _ _ _ _ _ _ _ Hw)
    as (_ & v & ds & _ & Hds & Hwrap).
  apply Forall2_length in Hds. apply wrap_datasets_inv in Hwrap.
  destruct split_ as [item|names].
  - by destruct Hwrap as (d & -> & ->).
  - subst w. simpl in *. by symmetry.
Qed.

(** C7: when no vocabulary is supplied, the vocabulary of the returned
    datasets is what [build_vocab_from_iterator] makes of the following
    stream: for every example of the train split, in order, the tokenized
    context, followed by the tokenized question, followed by the
    concatenation of the tokenized answers.  The train split is the list the
    raw loader returned for the name "train".  The returned value holds one
    dataset for every requested name, so at least the one for "train", and
    each of them has this vocabulary.  The call returns for valid split names
    that include "train" and a raw loader that yields one list per requested
    split. *)
Theorem C7_vocab_token_stream :
  ∀ (V : Type) (stoi : V → string → Z) (basic_english : Tokenizer)
    (build_vocab_from_iterator : list (list string) → nat → V)
    (raw_DATASETS : string → string → list string → list (list RawExample))
    (dataset_name root : string) (tokenizer : option Tokenizer)
    (split_ : SplitArg),
    let tok := default basic_english tokenizer in
    ((∀ s, s ∈ requested split_ → s ∈ ["train"; "dev"]) →
     "train" ∈ requested split_ →
     length (raw_DATASETS dataset_name root (requested split_))
       = length (requested split_) →
     ∃ w,
       _setup_datasets stoi basic_english build_vocab_from_iterator
         raw_DATASETS dataset_name root None tokenizer split_ = OK w)
    ∧
    (∀ w,
       _setup_datasets stoi basic_english build_vocab_from_iterator
         raw_DATASETS dataset_name root None tokenizer split_ = OK w →
       ∃ (k : nat) (train : list RawExample),
         requested split_ !! k = Some "train" ∧
         raw_DATASETS dataset_name root (requested split_) !! k = Some train ∧
         length (datasets_of w) = length (requested split_) ∧
         (∃ d, datasets_of w !! k = Some d) ∧
         ∀ d, d ∈ datasets_of w →
           get_vocab d =
           build_vocab_from_iterator
             ((λ ex, tok (raw_context ex)
                     ++ tok (raw_question ex)
                     ++ concat (tok <$> raw_answers ex)) <$> train)
             (length train)).
Proof.
  intros V stoi basic_english build_vocab_from_iterator raw_DATASETS
    dataset_name root tokenizer split_ tok.
  split.
  - intros Hall Htrain Hlen. by apply setup_datasets_returns.
  - intros w Hw.
    pose proof (setup_datasets_length _ _ _ _ _ _ _ _ _ _ Hw) as Hlen.
    destruct (setup_datasets_inv _ _ _ _ _ _ _ _ _ _ Hw)
      as (_ & v & ds & (_ & train & Htrain & Hv) & Hds & Hwrap).
    apply make_raw_data_origin in Htrain as (k & Hk & Hr).
    exists k, train. split; [done|]. split; [done|]. split; [done|].
    split.
    { apply lookup_lt_is_Some_2. rewrite Hlen. by eapply lookup_lt_Some. }
    intros d Hd.
    assert (Hin : d ∈ ds).
    { apply wrap_datasets_inv in Hwrap.
      destruct split_ as [item|names].
      - destruct Hwrap as (d' & -> & ->). exact Hd.
      - subst w. exact Hd. }
    apply list_elem_of_lookup in Hin as [n Hn].
    destruct (Forall2_lookup_r _ _ _ _ _ Hds Hn) as (item & _ & raw & _ & ->).
    unfold get_vocab. simpl. rewrite Hv.
    by rewrite apply_transform_stream.
Qed.

Lemma C7_witness :
  ∃ w d,
    SQuAD1 Fixture.list_stoi Fixture.whitespace_tokenizer
      Fixture.build_in_order Fixture.loader None None None None = OK w ∧
    length (datasets_of w) = 2%nat ∧
    datasets_of w !! 0%nat = Some d ∧
    get_vocab d =
      Fixture.build_in_order
        [ ["A"; "cat"; "sat."; "What"; "sat?"; "cat"];
          ["A"; "cat"; "sat."; "Who"; "ran?"] ] 2.
Proof.
  destruct (C7_vocab_token_stream (list string) Fixture.list_stoi
              Fixture.whitespace_tokenizer Fixture.build_in_order
              Fixture.loader "SQuAD1" ".data" None
              (SplitTuple ["train"; "dev"])) as [Hret Hstream].
  destruct Hret as [w Hw].
  - intros s Hs. exact Hs.
  - apply elem_of_cons. left. reflexivity.
  - reflexivity.
  - destruct (Hstream w Hw)
      as (k & train & Hk & Htrain & Hlen & [d Hd] & Hvocab).
    destruct k as [|[|k]]; [|discriminate Hk|discriminate Hk].
    injection Htrain as <-.
    exists w, d. split; [exact Hw|]. split; [exact Hlen|].
    split; [exact Hd|].
    apply Hvocab. apply list_elem_of_lookup. exists 0%nat. exact Hd.
Defined.

(** C8: the factory builds one transform set, shared by all the datasets it
    returns, and it returns one dataset for every requested name.  In the
    transform set the context, question and answers fields are one and the
    same function, the tokenizer followed by the index lookup of every token
    followed by the conversion to a tensor of the element type [torch.long],
    the 64-bit integers, and the ans_pos field is that conversion alone,
    which leaves the numbers of the pair as they are.  The vocabulary of the
    lookup is the one every returned dataset holds: the supplied one, or
    else the one built from the train split. *)
Theorem C8_shared_transform_set :
  ∀ (V : Type) (stoi : V → string → Z) (basic_english : Tokenizer)
    (build_vocab_from_iterator : list (list string) → nat → V)
    (raw_DATASETS : string → string → list string → list (list RawExample))
    (dataset_name root : string) (vocab0 : option V)
    (tokenizer : option Tokenizer) (split_ : SplitArg),
    let tok := default basic_english tokenizer in
    ((∀ s, s ∈ requested split_ → s ∈ ["train"; "dev"]) →
     (vocab0 = None → "train" ∈ requested split_) →
     length (raw_DATASETS dataset_name root (requested split_))
       = length (requested split_) →
     ∃ w,
       _setup_datasets stoi basic_english build_vocab_from_iterator
         raw_DATASETS dataset_name root vocab0 tokenizer split_ = OK w)
    ∧
    (∀ w,
       _setup_datasets stoi basic_english build_vocab_from_iterator
         raw_DATASETS dataset_name root vocab0 tokenizer split_ = OK w →
       ∃ (v : V) (tr : Transforms Tensor Tensor Tensor Tensor),
         length (datasets_of w) = length (requested split_) ∧
         (∀ (k : nat) (item : string),
            requested split_ !! k = Some item →
            ∃ d, datasets_of w !! k = Some d ∧
                 get_vocab d = v ∧ transforms d = tr) ∧
         (∀ d, d ∈ datasets_of w → get_vocab d = v ∧ transforms d = tr) ∧
         match vocab0 with
         | Some v' => v = v'
         | None =>
             ∃ train,
               make_raw_data (requested split_)
                 (raw_DATASETS dataset_name root (requested split_)) !! "train"
                 = Some train ∧
               v = build_vocab_from_iterator (apply_transform tok train)
                     (length train)
         end ∧
         context tr = question tr ∧
         question tr = answers tr ∧
         (∀ s : string,
            context tr s =
            {| tensor_dtype := torch_long;
               tolist := (λ t, stoi v t) <$> tok s |}) ∧
         (∀ pair : list Z,
            ans_pos tr pair = {| tensor_dtype := torch_long; tolist := pair |})).
Proof.
  intros V stoi basic_english build_vocab_from_iterator raw_DATASETS
    dataset_name root vocab0 tokenizer split_ tok.
  split.
  - intros Hall Hvocab Hlen. by apply setup_datasets_returns.
  - intros w Hw.
    pose proof (setup_datasets_length _ _ _ _ _ _ _ _ _ _ Hw) as Hlen.
    destruct (setup_datasets_inv _ _ _ _ _ _ _ _ _ _ Hw)
      as (_ & v & ds & Hv & Hds & Hwrap).
    assert (Hw' : datasets_of w = ds).
    { apply wrap_datasets_inv in Hwrap.
      destruct split_ as [item|names].
      - by destruct Hwrap as (d' & -> & ->).
      - by subst w. }
    exists v, (make_transforms stoi tok v).
    split; [done|]. rewrite Hw'.
    split; [|split; [|split; [|by repeat split]]].
    + intros k item Hk.
      destruct (Forall2_lookup_l _ _ _ _ _ Hds Hk) as (d & Hd & raw & _ & ->).
      eexists. split; [exact Hd|]. done.
    + intros d Hin.
      apply list_elem_of_lookup in Hin as [n Hn].
      destruct (Forall2_lookup_r _ _ _ _ _ Hds Hn) as (item & _ & raw & _ & ->).
      done.
    + destruct vocab0 as [v'|]; [done|].
      destruct Hv as (_ & train & Htrain & ->). by exists train.
Qed.

Lemma C8_witness :
  ∃ w (tr : Transforms Tensor Tensor Tensor Tensor),
    SQuAD2 Fixture.list_stoi Fixture.whitespace_tokenizer
      Fixture.build_in_order Fixture.loader
      None (Some (Some Fixture.itos)) None (Some (SplitTuple ["dev"; "train"]))
      = OK w ∧
    length (datasets_of w) = 2%nat ∧
    (∀ d, d ∈ datasets_of w → get_vocab d = Fixture.itos ∧ transforms d = tr) ∧
    context tr "A cat sat." = {| tensor_dtype := torch_long; tolist := [1; 2; 3] |} ∧
    answers tr "sat" = {| tensor_dtype := torch_long; tolist := [4] |} ∧
    ans_pos tr [2; 2] = {| tensor_dtype := torch_long; tolist := [2; 2] |}.
Proof.
  destruct (C8_shared_transform_set (list string) Fixture.list_stoi
              Fixture.whitespace_tokenizer Fixture.build_in_order
              Fixture.loader "SQuAD2" ".data" (Some Fixture.itos) None
              (SplitTuple ["dev"; "train"])) as [Hret Hshared].
  destruct Hret as [w Hw].
  - intros s Hs. apply elem_of_cons in Hs as [Hs|Hs].
    + rewrite Hs. apply elem_of_cons. right. apply list_elem_of_singleton.
      reflexivity.
    + apply list_elem_of_singleton in Hs. rewrite Hs. apply elem_of_cons.
      left. reflexivity.
  - intros H. discriminate H.
  - reflexivity.
  - destruct (Hshared w Hw)
      as (v & tr & Hlen & _ & Hd & Hv & Hcq & Hqa & Hc & Hp).
    simpl in Hv. exists w, tr. split; [exact Hw|]. split; [exact Hlen|].
    rewrite <- Hv.
    split; [exact Hd|].
    split; [rewrite Hc; rewrite Hv; reflexivity|].
    split; [|apply Hp].
    rewrite <- Hqa, <- Hcq, Hc, Hv. reflexivity.
Defined.

(** C9, amended: the public factory functions SQuAD1 and SQuAD2 have the
    parameter defaults root=".data", vocab=None, tokenizer=None and
    split=("train", "dev"). *)
Theorem C9_factory_defaults :
  ∀ (V : Type) (stoi : V → string → Z) (basic_english : Tokenizer)
    (build_vocab_from_iterator : list (list string) → nat → V)
    (raw_DATASETS : string → string → list string → list (list RawExample))
    (root : option string) (vocab0 : option (option V))
    (tokenizer : option (option Tokenizer)) (split_ : option SplitArg),
    SQuAD1 stoi basic_english build_vocab_from_iterator raw_DATASETS
      root vocab0 tokenizer split_
    = _setup_datasets stoi basic_english build_vocab_from_iterator raw_DATASETS
        "SQuAD1"
        (match root with Some r => r | None => ".data" end)
        (match vocab0 with Some v => v | None => None end)
        (match tokenizer with Some t => t | None => None end)
        (match split_ with Some s => s | None => SplitTuple ["train"; "dev"] end)
    ∧
    SQuAD2 stoi basic_english build_vocab_from_iterator raw_DATASETS
      root vocab0 tokenizer split_
    = _setup_datasets stoi basic_english build_vocab_from_iterator raw_DATASETS
        "SQuAD2"
        (match root with Some r => r | None => ".data" end)
        (match vocab0 with Some v => v | None => None end)
        (match tokenizer with Some t => t | None => None end)
        (match split_ with Some s => s | None => SplitTuple ["train"; "dev"] end).
Proof. intros. split; reflexivity. Qed.

(** The claim C9 as it was stated fails for the root: a call of SQuAD1 that
    leaves the root out loads from ".data", and so differs from the call
    with root=".". *)
Lemma C9_counterexample :
  ∃ d d',
    SQuAD1 Fixture.list_stoi Fixture.whitespace_tokenizer
      Fixture.build_in_order Fixture.loader
      None (Some (Some Fixture.itos)) None (Some (SplitStr "dev"))
      = OK (Single d) ∧
    SQuAD1 Fixture.list_stoi Fixture.whitespace_tokenizer
      Fixture.build_in_order Fixture.loader
      (Some ".") (Some (Some Fixture.itos)) None (Some (SplitStr "dev"))
      = OK (Single d') ∧
    raw_context <$> data d = [".data"] ∧
    raw_context <$> data d' = ["."] ∧
    SQuAD1 Fixture.list_stoi Fixture.whitespace_tokenizer
      Fixture.build_in_order Fixture.loader
      None (Some (Some Fixture.itos)) None (Some (SplitStr "dev"))
    ≠ SQuAD1 Fixture.list_stoi Fixture.whitespace_tokenizer
        Fixture.build_in_order Fixture.loader
        (Some ".") (Some (Some Fixture.itos)) None (Some (SplitStr "dev")).
Proof.
  eexists _, _.
  split; [reflexivity|]. split; [reflexivity|].
  split; [reflexivity|]. split; [reflexivity|].
  intros H.
  assert (Hd : ∀ w w' : Result (Wrapped (Dataset (V:=list string))),
            w = w' →
            match w, w' with
            | OK (Single d), OK (Single d') => data d = data d'
            | _, _ => True
            end).
  { intros w w' <-. by destruct w as [[d|ds]|e]. }
  apply Hd in H. vm_compute in H. discriminate H.
Qed.

(** C2, amended: for a dataset with the transform set of the factory, every
    valid index and every answer [j] whose offset [k] is not [-1], the span
    [[start, end]] returned by [get(i)] satisfies [start >= 0] and
    [end = start + n - 1], where [n] is the number of tokens of
    [answers[j]]; so [end >= start] holds when the answer has at least one
    token.  When the tokens of the context are the tokens of the prefix
    [context[:k]], followed by the tokens of the answer, followed by further
    tokens, the encoded context from [start] to [end] inclusive is the
    encoding of [answers[j]]. *)
Theorem C2_span_bounds_and_alignment :
  ∀ (V : Type) (stoi : V → string → Z) (tokenizer : Tokenizer) (v : V)
    (exs : list RawExample) (i : Z) (ex : RawExample) (j : nat) (k : Z),
    getitem exs i = OK ex →
    (length (raw_answer_start ex) ≤ length (raw_answers ex))%nat →
    raw_answer_start ex !! j = Some k →
    k ≠ -1 →
    ∃ c q a p ans enc start end_,
      __getitem__ {| data := exs; vocab := v;
                     transforms := make_transforms stoi tokenizer v |} i
        = OK (c, q, a, p) ∧
      raw_answers ex !! j = Some ans ∧
      a !! j = Some enc ∧
      p !! j = Some {| tensor_dtype := torch_long; tolist := [start; end_] |} ∧
      0 ≤ start ∧
      end_ = start + Z.of_nat (length (tokenizer ans)) - 1 ∧
      (tokenizer ans ≠ [] → start ≤ end_) ∧
      (∀ rest,
         tokenizer (raw_context ex)
         = tokenizer (str_slice_to (raw_context ex) k) ++ tokenizer ans ++ rest →
         slice (tolist c) start (end_ + 1) = tolist enc).
Proof.
  intros V stoi tokenizer v exs i ex j k Hex Hlen Hk Hne.
  set (ds := {| data := exs; vocab := v;
                transforms := make_transforms stoi tokenizer v |}).
  destruct (getitem_returns ds i ex Hex Hlen) as [[[[c q] a] p] Hr].
  destruct (getitem_inv ds i ex _ Hex Hr) as (Hc & _ & _ & _ & Hj).
  destruct (Hj j k Hk) as (ans & Ha & Hea & Hp). simpl in *.
  unfold span_for in Hp. rewrite bool_decide_eq_false_2 in Hp by done.
  set (pre := tokenizer (str_slice_to (raw_context ex) k)) in *.
  exists c, q, a, p, ans,
    (totensor torch_long (vocab_func stoi v (tokenizer ans))),
    (Z.of_nat (length pre)),
    (Z.of_nat (length pre) + Z.of_nat (length (tokenizer ans)) - 1).
  assert (Hl : ∀ toks : list string,
            py_len (totensor torch_long (vocab_func stoi v toks)) = length toks).
  { intros toks. unfold py_len, Tensor_PyLen, vocab_func. simpl.
    by rewrite length_fmap. }
  assert (Hctx : ∀ s, context (make_transforms stoi tokenizer v) s
                      = totensor torch_long (vocab_func stoi v (tokenizer s)))
    by reflexivity.
  assert (Hans : ∀ s, answers (make_transforms stoi tokenizer v) s
                      = totensor torch_long (vocab_func stoi v (tokenizer s)))
    by reflexivity.
  rewrite Hctx, Hans, !Hl in Hp.
  unfold sequential_transforms3 in Hc.
  repeat split; try done; try lia.
  - intros Hnil. destruct (tokenizer ans); [done|]. simpl. lia.
  - intros rest Hsplit. rewrite Hc. simpl.
    rewrite Hsplit. unfold vocab_func. rewrite !fmap_app.
    replace (Z.of_nat (length pre) + Z.of_nat (length (tokenizer ans)) - 1 + 1)
      with (Z.of_nat (length ((λ tok, stoi v tok) <$> pre)
                      + length ((λ tok, stoi v tok) <$> tokenizer ans)))
      by (rewrite !length_fmap; lia).
    replace (Z.of_nat (length pre))
      with (Z.of_nat (length ((λ tok, stoi v tok) <$> pre)))
      by (by rewrite length_fmap).
    apply slice_middle.
Qed.

Lemma C2_witness :
  ∃ c q a p ans enc start end_,
    __getitem__ (Fixture.dataset_of [Fixture.cat_example]) 0 = OK (c, q, a, p) ∧
    raw_answers Fixture.cat_example !! 0%nat = Some ans ∧
    a !! 0%nat = Some enc ∧
    p !! 0%nat = Some {| tensor_dtype := torch_long; tolist := [start; end_] |} ∧
    0 ≤ start ∧ start ≤ end_ ∧
    slice (tolist c) start (end_ + 1) = tolist enc.
Proof.
  destruct (C2_span_bounds_and_alignment (list string) Fixture.list_stoi
              Fixture.whitespace_tokenizer Fixture.itos
              [Fixture.cat_example] 0 Fixture.cat_example 0%nat 2)
    as (c & q & a & p & ans & enc & start & end_
        & Hr & Ha & Hea & Hp & H0 & _ & Hord & Hsub).
  - reflexivity.
  - simpl. lia.
  - reflexivity.
  - lia.
  - exists c, q, a, p, ans, enc, start, end_.
    split; [exact Hr|]. split; [exact Ha|]. split; [exact Hea|].
    split; [exact Hp|]. split; [exact H0|].
    injection Ha as <-.
    split; [apply Hord; discriminate|].
    apply (Hsub ["sat."]). reflexivity.
Defined.

(** The claim C2 as it was stated fails in both of its parts, with the white
    space tokenizer.  The answer "sat" at offset 6 of "A cat sat." has the
    span [[2, 2]], and the token of the context at that position is "sat.",
    not "sat".  The empty answer at offset 2 has the span [[1, 0]], whose end
    is before its start. *)
Lemma C2_counterexample :
  (__getitem__ (Fixture.dataset_of [Fixture.sat_example]) 0 =
     OK ({| tensor_dtype := torch_long; tolist := [1; 2; 3] |},
         {| tensor_dtype := torch_long; tolist := [5; 6] |},
         [ {| tensor_dtype := torch_long; tolist := [4] |} ],
         [ {| tensor_dtype := torch_long; tolist := [2; 2] |} ]) ∧
   slice [1; 2; 3] 2 (2 + 1) ≠ [4])
  ∧
  (__getitem__ (Fixture.dataset_of [Fixture.empty_answer_example]) 0 =
     OK ({| tensor_dtype := torch_long; tolist := [1; 2; 3] |},
         {| tensor_dtype := torch_long; tolist := [5; 6] |},
         [ {| tensor_dtype := torch_long; tolist := [] |} ],
         [ {| tensor_dtype := torch_long; tolist := [1; 0] |} ]) ∧
   ¬ (0 ≥ 1)).
Proof.
  split; (split; [reflexivity|]).
  - discriminate.
  - lia.
Qed.

(** * Further properties of the code *)

(** ** Sequence access and slices *)

Lemma getitem_OK_iff {X : Type} (l : list X) (i : Z) (a : X) :
  getitem l i = OK a ↔
  - Z.of_nat (length l) ≤ i < Z.of_nat (length l) ∧
  l !! Z.to_nat (if i <? 0 then i + Z.of_nat (length l) else i) = Some a.
Proof.
  unfold getitem, norm_index. split.
  - intros H. destruct (Z.ltb_spec i 0) as [Hi|Hi].
    + destruct (Z.ltb_spec (i + Z.of_nat (length l)) 0); [done|].
      destruct (l !! _) as [a'|] eqn:Hl; [|done].
      injection H as <-. split; [lia|done].
    + destruct (Z.ltb_spec i 0); [lia|].
      destruct (l !! _) as [a'|] eqn:Hl; [|done].
      injection H as <-. apply lookup_lt_Some in Hl as Hlt.
      split; [lia|done].
  - intros [Hr Hl]. destruct (Z.ltb_spec i 0) as [Hi|Hi].
    + destruct (Z.ltb_spec (i + Z.of_nat (length l)) 0); [lia|].
      by rewrite Hl.
    + destruct (Z.ltb_spec i 0); [lia|]. by rewrite Hl.
Qed.

Lemma substring_whole (s : string) (n : nat) :
  (String.length s ≤ n)%nat → String.substring 0 n s = s.
Proof.
  revert n. induction s as [|c s IH]; intros n Hn; simpl in *.
  - by destruct n.
  - destruct n as [|n]; [lia|]. rewrite IH; [done|lia].
Qed.

Lemma str_slice_to_beyond (s : string) (k : Z) :
  Z.of_nat (String.length s) ≤ k → str_slice_to s k = s.
Proof.
  intros Hk. unfold str_slice_to, clamp_bound.
  destruct (Z.ltb_spec k 0); [lia|].
  apply substring_whole. lia.
Qed.

Lemma str_slice_to_negative (s : string) (k : Z) :
  k < 0 →
  str_slice_to s k = String.substring 0 (String.length s - Z.to_nat (- k)) s.
Proof.
  intros Hk. unfold str_slice_to, clamp_bound.
  destruct (Z.ltb_spec k 0); [|lia].
  f_equal. lia.
Qed.

(** ** More on [__getitem__] *)

Section LoopAgreement.
Context {C Q A P : Type} `{!PyLen C, !PyLen A}.
Variable tr : Transforms C Q A P.

Lemma getitem_body_agree (ex1 ex2 : RawExample) acc (idx : nat) :
  raw_context ex1 = raw_context ex2 →
  raw_answer_start ex1 = raw_answer_start ex2 →
  raw_answers ex1 !! idx = raw_answers ex2 !! idx →
  getitem_body tr ex1 acc idx = getitem_body tr ex2 acc idx.
Proof.
  intros Hc Hs Ha. unfold getitem_body.
  by rewrite !getitem_nat, Hc, Hs, Ha.
Qed.

Lemma getitem_loop_agree (ex1 ex2 : RawExample) n : ∀ s acc,
  raw_context ex1 = raw_context ex2 →
  raw_answer_start ex1 = raw_answer_start ex2 →
  (∀ j, (s ≤ j < s + n)%nat → raw_answers ex1 !! j = raw_answers ex2 !! j) →
  getitem_loop tr ex1 (seq s n) acc = getitem_loop tr ex2 (seq s n) acc.
Proof.
  induction n as [|n IH]; intros s acc Hc Hs Ha; simpl; [done|].
  rewrite (getitem_body_agree ex1 ex2 acc s Hc Hs) by (apply Ha; lia).
  destruct (getitem_body tr ex2 acc s) as [acc'|e]; simpl; [|done].
  apply IH; try done. intros j Hj. apply Ha. lia.
Qed.

End LoopAgreement.

(** X1: [get(i)] returns exactly when [i] is an index of the underlying list,
    counted from the front or, if negative, from the end, and the example
    there has at least as many answers as offsets.  In every other case the
    exception is [IndexError]: [get(i)] raises no other one. *)
Theorem X1_getitem_returns_iff :
  ∀ (V C Q A P : Type) (HC : PyLen C) (HA : PyLen A)
    (ds : QuestionAnswerDataset V C Q A P) (i : Z),
    ((∃ r, __getitem__ ds i = OK r) ↔
     - Z.of_nat (__len__ ds) ≤ i < Z.of_nat (__len__ ds) ∧
     ∃ ex,
       data ds !! Z.to_nat (if i <? 0 then i + Z.of_nat (__len__ ds) else i)
         = Some ex ∧
       (length (raw_answer_start ex) ≤ length (raw_answers ex))%nat)
    ∧
    (∀ e, __getitem__ ds i = Err e → e = IndexError).
Proof.
  intros V C Q A P HC HA ds i. unfold __len__.
  destruct (getitem (data ds) i) as [ex|e0] eqn:Hex.
  - pose proof (proj1 (getitem_OK_iff _ _ _) Hex) as [Hrange Hl].
    destruct (decide (length (raw_answer_start ex) ≤ length (raw_answers ex))%nat)
      as [Hlen|Hlen].
    + destruct (getitem_returns ds i ex Hex Hlen) as [r Hr].
      split; [|intros e He; congruence].
      split; [|by exists r]. intros _. split; [done|]. by exists ex.
    + rewrite (getitem_missing_answer ds i ex Hex) by lia.
      split; [|intros e He; congruence].
      split; [by intros [r Hr]|].
      intros (_ & ex' & Hl' & Hlen'). by simplify_eq.
  - assert (Hraise : __getitem__ ds i = Err e0).
    { unfold __getitem__. by rewrite Hex. }
    rewrite Hraise. split.
    + split; [by intros [r Hr]|].
      intros (Hrange & ex & Hl & _).
      assert (getitem (data ds) i = OK ex) by (by apply getitem_OK_iff).
      congruence.
    + intros e He. injection He as <-.
      by eapply getitem_only_IndexError.
Qed.

Lemma X1_witness :
  (∃ r, __getitem__ (Fixture.dataset_of [Fixture.cat_example]) (-1) = OK r) ∧
  __getitem__ (Fixture.dataset_of [Fixture.cat_example]) 1 = Err IndexError.
Proof.
  destruct (X1_getitem_returns_iff _ _ _ _ _ _ _
              (Fixture.dataset_of [Fixture.cat_example]) (-1)) as [Hiff _].
  destruct (X1_getitem_returns_iff _ _ _ _ _ _ _
              (Fixture.dataset_of [Fixture.cat_example]) 1) as [_ Herr].
  split.
  - apply Hiff. split; [unfold __len__; simpl; lia|].
    exists Fixture.cat_example. split; [reflexivity|simpl; lia].
  - assert (∃ e, __getitem__ (Fixture.dataset_of [Fixture.cat_example]) 1 = Err e)
      as [e He] by (eexists; reflexivity).
    rewrite He. f_equal. exact (Herr e He).
Defined.

(** X2: [get(i)] never looks at an answer whose position is not a position
    of [answer_start]: two examples with the same context, question and
    offsets, whose answers agree on the first [len(answer_start)] positions,
    give the same result (or the same exception) under the same
    transforms. *)
Theorem X2_surplus_answers_ignored :
  ∀ (V C Q A P : Type) (HC : PyLen C) (HA : PyLen A)
    (ds1 ds2 : QuestionAnswerDataset V C Q A P) (i1 i2 : Z)
    (ex1 ex2 : RawExample),
    transforms ds1 = transforms ds2 →
    getitem (data ds1) i1 = OK ex1 →
    getitem (data ds2) i2 = OK ex2 →
    raw_context ex1 = raw_context ex2 →
    raw_question ex1 = raw_question ex2 →
    raw_answer_start ex1 = raw_answer_start ex2 →
    take (length (raw_answer_start ex1)) (raw_answers ex1)
      = take (length (raw_answer_start ex1)) (raw_answers ex2) →
    __getitem__ ds1 i1 = __getitem__ ds2 i2.
Proof.
  intros V C Q A P HC HA ds1 ds2 i1 i2 ex1 ex2 Htr H1 H2 Hc Hq Hs Ha.
  unfold __getitem__. rewrite H1, H2, Htr. simpl. rewrite Hc, Hq.
  rewrite (getitem_loop_agree (transforms ds2) ex1 ex2
             (length (raw_answer_start ex1)) 0 ([], []) Hc Hs).
  - by rewrite Hs.
  - intros j Hj.
    transitivity (take (length (raw_answer_start ex1)) (raw_answers ex1) !! j).
    + symmetry. apply lookup_take_lt. lia.
    + rewrite Ha. apply lookup_take_lt. lia.
Qed.

Lemma X2_witness :
  __getitem__ (Fixture.dataset_of [Fixture.cat_example]) 0
  = __getitem__ (Fixture.dataset_of [Fixture.two_answers_example]) 0.
Proof.
  apply (X2_surplus_answers_ignored _ _ _ _ _ _ _
           (Fixture.dataset_of [Fixture.cat_example])
           (Fixture.dataset_of [Fixture.two_answers_example]) 0 0
           Fixture.cat_example Fixture.two_answers_example);
    reflexivity.
Defined.

(** X3: an offset at or beyond the end of the context is not rejected: the
    prefix is then the whole context, so the start of the span is the length
    of the encoded context that [get(i)] returns, one past its last
    position. *)
Theorem X3_offset_beyond_context :
  ∀ (V C Q A P : Type) (HC : PyLen C) (HA : PyLen A)
    (ds : QuestionAnswerDataset V C Q A P) (i : Z) (ex : RawExample)
    (j : nat) (k : Z) (r : C * Q * list A * list P),
    getitem (data ds) i = OK ex →
    raw_answer_start ex !! j = Some k →
    Z.of_nat (String.length (raw_context ex)) ≤ k →
    __getitem__ ds i = OK r →
    ∃ ans,
      raw_answers ex !! j = Some ans ∧
      r.2 !! j = Some
        (ans_pos (transforms ds)
           [Z.of_nat (py_len r.1.1.1);
            Z.of_nat (py_len r.1.1.1)
            + Z.of_nat (py_len (answers (transforms ds) ans)) - 1]).
Proof.
  intros V C Q A P HC HA ds i ex j k r Hex Hk Hbeyond Hr.
  destruct (getitem_inv ds i ex r Hex Hr) as (Hc & _ & _ & _ & Hj).
  destruct (Hj j k Hk) as (ans & Ha & _ & Hp).
  exists ans. split; [done|]. rewrite Hp, Hc. unfold span_for.
  rewrite bool_decide_eq_false_2 by lia.
  by rewrite str_slice_to_beyond.
Qed.

Lemma X3_witness :
  ∃ r,
    __getitem__ (Fixture.dataset_of [Fixture.far_offset_example]) 0 = OK r ∧
    tolist r.1.1.1 = [1; 2; 3] ∧
    r.2 !! 0%nat = Some {| tensor_dtype := torch_long; tolist := [3; 3] |}.
Proof.
  eexists. split; [reflexivity|]. split; [reflexivity|].
  destruct (X3_offset_beyond_context _ _ _ _ _ _ _
              (Fixture.dataset_of [Fixture.far_offset_example]) 0
              Fixture.far_offset_example 0%nat 50 _
              eq_refl eq_refl ltac:(simpl; lia) eq_refl)
    as (ans & Ha & Hp).
  injection Ha as <-. exact Hp.
Defined.

(** X4: only [-1] is the mark of a missing answer.  Any other negative
    offset [k] is used as a slice bound: the prefix is the context without
    its last [-k] characters (the empty string when the context is shorter),
    and the span is computed from it. *)
Theorem X4_negative_offset_counts_from_end :
  ∀ (V C Q A P : Type) (HC : PyLen C) (HA : PyLen A)
    (ds : QuestionAnswerDataset V C Q A P) (i : Z) (ex : RawExample)
    (j : nat) (k : Z) (r : C * Q * list A * list P),
    getitem (data ds) i = OK ex →
    raw_answer_start ex !! j = Some k →
    k < -1 →
    __getitem__ ds i = OK r →
    ∃ ans,
      raw_answers ex !! j = Some ans ∧
      let prefix :=
        String.substring 0
          (String.length (raw_context ex) - Z.to_nat (- k)) (raw_context ex) in
      let start := Z.of_nat (py_len (context (transforms ds) prefix)) in
      r.2 !! j = Some
        (ans_pos (transforms ds)
           [start; start + Z.of_nat (py_len (answers (transforms ds) ans)) - 1]).
Proof.
  intros V C Q A P HC HA ds i ex j k r Hex Hk Hneg Hr.
  destruct (getitem_inv ds i ex r Hex Hr) as (_ & _ & _ & _ & Hj).
  destruct (Hj j k Hk) as (ans & Ha & _ & Hp).
  exists ans. split; [done|]. simpl. rewrite Hp. unfold span_for.
  rewrite bool_decide_eq_false_2 by lia.
  by rewrite str_slice_to_negative by lia.
Qed.

Lemma X4_witness :
  ∃ r,
    __getitem__ (Fixture.dataset_of [Fixture.negative_offset_example]) 0 = OK r ∧
    r.2 !! 0%nat = Some {| tensor_dtype := torch_long; tolist := [2; 2] |}.
Proof.
  eexists. split; [reflexivity|].
  destruct (X4_negative_offset_counts_from_end _ _ _ _ _ _ _
              (Fixture.dataset_of [Fixture.negative_offset_example]) 0
              Fixture.negative_offset_example 0%nat (-4) _
              eq_refl eq_refl ltac:(lia) eq_refl)
    as (ans & Ha & Hp).
  injection Ha as <-. exact Hp.
Defined.

(** X5: for an offset other than [-1], the span [[start, end]] and the
    encoded answer that [get(i)] returns at the same position fit together:
    [start] is not negative and [end - start + 1] is the length of the
    encoded answer. *)
Theorem X5_span_width_is_answer_length :
  ∀ (V C Q A P : Type) (HC : PyLen C) (HA : PyLen A)
    (ds : QuestionAnswerDataset V C Q A P) (i : Z) (ex : RawExample)
    (j : nat) (k : Z) (r : C * Q * list A * list P),
    getitem (data ds) i = OK ex →
    raw_answer_start ex !! j = Some k →
    k ≠ -1 →
    __getitem__ ds i = OK r →
    ∃ (enc : A) (start end_ : Z),
      r.1.2 !! j = Some enc ∧
      r.2 !! j = Some (ans_pos (transforms ds) [start; end_]) ∧
      0 ≤ start ∧
      end_ - start + 1 = Z.of_nat (py_len enc).
Proof.
  intros V C Q A P HC HA ds i ex j k r Hex Hk Hne Hr.
  destruct (getitem_inv ds i ex r Hex Hr) as (_ & _ & _ & _ & Hj).
  destruct (Hj j k Hk) as (ans & Ha & Hea & Hp).
  unfold span_for in Hp. rewrite bool_decide_eq_false_2 in Hp by done.
  eexists _, _, _. split; [exact Hea|]. split; [exact Hp|]. lia.
Qed.

Lemma X5_witness :
  ∃ r enc start end_,
    __getitem__ (Fixture.dataset_of [Fixture.empty_answer_example]) 0 = OK r ∧
    r.1.2 !! 0%nat = Some enc ∧
    r.2 !! 0%nat = Some {| tensor_dtype := torch_long; tolist := [start; end_] |} ∧
    0 ≤ start ∧
    end_ - start + 1 = Z.of_nat (py_len enc).
Proof.
  eexists.
  destruct (X5_span_width_is_answer_length _ _ _ _ _ _ _
              (Fixture.dataset_of [Fixture.empty_answer_example]) 0
              Fixture.empty_answer_example 0%nat 2 _
              eq_refl eq_refl ltac:(lia) eq_refl)
    as (enc & start & end_ & Hea & Hp & H0 & Hw).
  exists enc, start, end_.
  split; [reflexivity|]. split; [exact Hea|]. split; [exact Hp|].
  split; [exact H0|exact Hw].
Defined.

(** The encoded answers of a returned value are the transforms of the first
    [len(answer_start)] answers. *)
Lemma getitem_answers_take {V C Q A P : Type} `{!PyLen C, !PyLen A}
    (ds : QuestionAnswerDataset V C Q A P) (i : Z) (ex : RawExample)
    (r : C * Q * list A * list P) :
  getitem (data ds) i = OK ex →
  __getitem__ ds i = OK r →
  r.1.2 = answers (transforms ds)
            <$> take (length (raw_answer_start ex)) (raw_answers ex).
Proof.
  intros Hex Hr.
  destruct (getitem_inv ds i ex r Hex Hr) as (_ & _ & La & _ & Hj).
  apply list_eq. intros j. rewrite list_lookup_fmap.
  destruct (decide (j < length (raw_answer_start ex))%nat) as [Hlt|Hge].
  - destruct (lookup_lt_is_Some_2 (raw_answer_start ex) j Hlt) as [k Hk].
    destruct (Hj j k Hk) as (ans & Ha & Hea & _).
    rewrite Hea, lookup_take_lt, Ha by done. done.
  - rewrite lookup_ge_None_2 by lia.
    rewrite lookup_take_ge by lia. done.
Qed.

(** ** More on the factory *)

Section RawDataMore.
Implicit Types (split : list string) (raws : list (list RawExample)).

Lemma make_raw_data_None split raws name :
  make_raw_data split raws !! name = None → name ∈ split →
  (length raws < length split)%nat.
Proof.
  intros Hn Hin.
  destruct (decide (length split ≤ length raws)%nat) as [Hle|]; [|lia].
  rewrite make_raw_data_list_to_map in Hn.
  apply not_elem_of_list_to_map in Hn. destruct Hn.
  rewrite fmap_reverse, elem_of_reverse, fst_zip; done.
Qed.

Lemma foldl_insert_absent (l : list (string * list RawExample))
    (m : gmap string (list RawExample)) name :
  name ∉ l.*1 →
  foldl (λ d kv, <[kv.1 := kv.2]> d) m l !! name = m !! name.
Proof.
  revert m. induction l as [|[n r] l IH]; intros m Hn; simpl; [done|].
  rewrite fmap_cons, not_elem_of_cons in Hn. destruct Hn as [Hne Hn].
  rewrite IH by done. by rewrite lookup_insert_ne.
Qed.

Lemma foldl_insert_last (l : list (string * list RawExample)) :
  ∀ (m : gmap string (list RawExample)) (k : nat) name raw,
    l !! k = Some (name, raw) →
    (∀ (k' : nat) raw', (k < k')%nat → l !! k' ≠ Some (name, raw')) →
    foldl (λ d kv, <[kv.1 := kv.2]> d) m l !! name = Some raw.
Proof.
  induction l as [|[n r] l IH]; intros m k name raw Hk Hlast; [done|].
  destruct k as [|k]; simpl in *.
  - injection Hk as -> ->. rewrite foldl_insert_absent.
    + by rewrite lookup_insert_eq.
    + intros Hin. apply list_elem_of_fmap in Hin as ([n' r'] & -> & Hin).
      apply list_elem_of_lookup in Hin as [k' Hk'].
      by apply (Hlast (S k') r'); [lia|].
  - apply (IH _ k); [done|]. intros k' raw' Hlt.
    apply (Hlast (S k') raw'). lia.
Qed.

(** With a name requested several times, [raw_data] keeps the list loaded
    for its last occurrence. *)
Lemma make_raw_data_last split raws (k : nat) name raw :
  split !! k = Some name → raws !! k = Some raw →
  (∀ k' : nat, (k < k')%nat → split !! k' ≠ Some name) →
  make_raw_data split raws !! name = Some raw.
Proof.
  intros Hk Hr Hlast. unfold make_raw_data. apply (foldl_insert_last _ _ k).
  - apply lookup_zip_with_Some. by exists name, raw.
  - intros k' raw' Hlt Hz.
    apply lookup_zip_with_Some in Hz as (x & y & Heq & Hx & _).
    simplify_eq. by apply (Hlast k').
Qed.

End RawDataMore.

Section FactoryMore.
Context {V : Type}.
Variable stoi : V → string → Z.
Variable basic_english : Tokenizer.
Variable build_vocab_from_iterator : list (list string) → nat → V.
Variable raw_DATASETS : string → string → list string → list (list RawExample).

(** Every dataset of a returned value holds an entry of [raw_data] and the
    transform set made of the tokenizer and of its vocabulary. *)
Lemma setup_datasets_member dataset_name root vocab0 tokenizer split_ w d :
  _setup_datasets stoi basic_english build_vocab_from_iterator raw_DATASETS
    dataset_name root vocab0 tokenizer split_ = OK w →
  d ∈ datasets_of w →
  ∃ item raw,
    item ∈ requested split_ ∧
    make_raw_data (requested split_)
      (raw_DATASETS dataset_name root (requested split_)) !! item = Some raw ∧
    d = {| data := raw; vocab := vocab d;
           transforms :=
             make_transforms stoi (default basic_english tokenizer) (vocab d) |} ∧
    (∀ v, vocab0 = Some v → vocab d = v).
Proof.
  intros Hw Hd.
  destruct (setup_datasets_inv _ _ _ _ _ _ _ _ _ _ Hw)
    as (_ & v & ds & Hv & Hds & Hwrap).
  assert (Hin : d ∈ ds).
  { apply wrap_datasets_inv in Hwrap.
    destruct split_ as [item|names].
    - destruct Hwrap as (d' & -> & ->). exact Hd.
    - subst w. exact Hd. }
  apply list_elem_of_lookup in Hin as [n Hn].
  destruct (Forall2_lookup_r _ _ _ _ _ Hds Hn) as (item & Hitem & raw & Hraw & ->).
  exists item, raw. simpl. split; [by eapply list_elem_of_lookup_2|].
  split; [done|]. split; [done|]. intros v' ->. done.
Qed.

(** The exceptions of the factory. *)
Lemma setup_datasets_raises dataset_name root vocab0 tokenizer split_ e :
  _setup_datasets stoi basic_english build_vocab_from_iterator raw_DATASETS
    dataset_name root vocab0 tokenizer split_ = Err e →
  e = TypeError ∨
  (e = KeyError ∧
   (length (raw_DATASETS dataset_name root (requested split_))
    < length (requested split_))%nat).
Proof.
  unfold _setup_datasets.
  destruct (check_default_set_cases split_ ["train"; "dev"] dataset_name)
    as [[Hall ->]|[Hex ->]]; simpl; [|intros [= <-]; by left].
  set (raw_data := make_raw_data _ _).
  assert (Hget : ∀ item e', item ∈ requested split_ →
                   dict_get raw_data item = Err e' →
                   e' = KeyError ∧
                   (length (raw_DATASETS dataset_name root (requested split_))
                    < length (requested split_))%nat).
  { intros item e' Hin He'. unfold dict_get in He'.
    destruct (raw_data !! item) eqn:Hl; [done|]. injection He' as <-.
    split; [done|]. by eapply make_raw_data_None. }
  assert (Htail : ∀ v : V,
             (ds ←? mapM (λ item, d ←? dict_get raw_data item;
                           OK {| data := d; vocab := v;
                                 transforms :=
                                   make_transforms stoi
                                     (sequential_transforms1
                                        (default basic_english tokenizer)) v |})
                      (requested split_);
              _wrap_datasets ds split_) = Err e →
             e = KeyError ∧
             (length (raw_DATASETS dataset_name root (requested split_))
              < length (requested split_))%nat).
  { intros v. destruct (mapM _ _) as [ds|e'] eqn:Hm; simpl.
    - intros Hwrap. apply mapM_inv, Forall2_length in Hm.
      destruct split_ as [name|names]; simpl in *; [|done].
      by destruct ds as [|d [|d' ds]].
    - intros [= <-]. apply mapM_raises in Hm as (item & Hin & Hitem).
      destruct (dict_get raw_data item) as [raw|e''] eqn:Hd; simpl in Hitem;
        [done|]. injection Hitem as <-. by eapply Hget. }
  destruct vocab0 as [v|]; simpl.
  - intros H. right. by eapply Htail.
  - destruct (bool_decide ("train" ∈ requested split_)) eqn:Ht; simpl;
      [|intros [= <-]; by left].
    apply bool_decide_eq_true_1 in Ht.
    destruct (dict_get raw_data "train") as [train|e'] eqn:Hd; simpl.
    + intros H. right. by eapply Htail.
    + intros [= <-]. right. by eapply Hget.
Qed.

End FactoryMore.

(** X6: the factory and [get(i)] together.  For every dataset that the
    factory returns, every valid index and an example with no answer
    missing, [get(i)] returns the encoded context, the encoded question and
    the encodings of the first [len(answer_start)] answers, where the
    encoding of a text is the 64-bit integer tensor of the vocabulary indices
    of its tokens, one index for every token; and one 64-bit integer tensor
    of two numbers for every offset. *)
Theorem X6_factory_dataset_getitem :
  ∀ (V : Type) (stoi : V → string → Z) (basic_english : Tokenizer)
    (build_vocab_from_iterator : list (list string) → nat → V)
    (raw_DATASETS : string → string → list string → list (list RawExample))
    (dataset_name root : string) (vocab0 : option V)
    (tokenizer : option Tokenizer) (split_ : SplitArg)
    (w : Wrapped (Dataset (V:=V))) (d : Dataset (V:=V)) (i : Z)
    (ex : RawExample),
    _setup_datasets stoi basic_english build_vocab_from_iterator raw_DATASETS
      dataset_name root vocab0 tokenizer split_ = OK w →
    d ∈ datasets_of w →
    getitem (data d) i = OK ex →
    (length (raw_answer_start ex) ≤ length (raw_answers ex))%nat →
    let encode := λ text : string,
      {| tensor_dtype := torch_long;
         tolist := (λ tok, stoi (get_vocab d) tok)
                     <$> match tokenizer with
                         | Some t => t text
                         | None => basic_english text
                         end |} in
    ∃ p,
      __getitem__ d i =
        OK (encode (raw_context ex), encode (raw_question ex),
            encode <$> take (length (raw_answer_start ex)) (raw_answers ex),
            p) ∧
      length p = length (raw_answer_start ex) ∧
      ∀ t, t ∈ p → tensor_dtype t = torch_long ∧ length (tolist t) = 2%nat.
Proof.
  intros V stoi basic_english build_vocab_from_iterator raw_DATASETS
    dataset_name root vocab0 tokenizer split_ w d i ex Hw Hd Hex Hlen encode.
  destruct (setup_datasets_member _ _ _ _ _ _ _ _ _ _ _ Hw Hd)
    as (item & raw & _ & _ & Heq & _).
  assert (Htr : transforms d
                = make_transforms stoi (default basic_english tokenizer) (vocab d))
    by (by rewrite Heq at 1).
  assert (Henc : ∀ s, sequential_transforms3 (default basic_english tokenizer)
                        (vocab_func stoi (vocab d)) (totensor torch_long) s
                      = encode s).
  { intros s. unfold encode, get_vocab. by destruct tokenizer. }
  destruct (getitem_returns d i ex Hex Hlen) as [[[[c q] a] p] Hr].
  pose proof (getitem_answers_take d i ex _ Hex Hr) as Ha.
  destruct (getitem_inv d i ex _ Hex Hr) as (Hc & Hq & _ & Lp & Hj).
  simpl in *. rewrite Htr in Hc, Hq, Ha, Hj. simpl in *.
  exists p. split; [|split; [done|]].
  - rewrite Hr, Hc, Hq, Ha, !Henc. do 3 f_equal.
    apply list_fmap_ext. intros _ s _. apply Henc.
  - intros t Ht. apply list_elem_of_lookup in Ht as [j Ht].
    apply lookup_lt_Some in Ht as Hlt. rewrite Lp in Hlt.
    destruct (lookup_lt_is_Some_2 (raw_answer_start ex) j Hlt) as [k Hk].
    destruct (Hj j k Hk) as (ans & _ & _ & Hp).
    rewrite Ht in Hp. injection Hp as ->. unfold span_for.
    by destruct (bool_decide (k = -1)).
Qed.

Lemma X6_witness :
  ∃ d,
    SQuAD1 Fixture.list_stoi Fixture.whitespace_tokenizer
      Fixture.build_in_order Fixture.loader
      None (Some (Some Fixture.itos)) (Some (Some Fixture.whitespace_tokenizer))
      (Some (SplitStr "train")) = OK (Single d) ∧
    ∃ p,
      __getitem__ d 0 =
        OK ({| tensor_dtype := torch_long; tolist := [1; 2; 3] |},
            {| tensor_dtype := torch_long; tolist := [5; 6] |},
            [ {| tensor_dtype := torch_long; tolist := [2] |} ],
            p) ∧
      length p = 1%nat.
Proof.
  eexists. split; [reflexivity|].
  match goal with
  | |- ∃ p, __getitem__ ?d 0 = _ ∧ _ =>
      destruct (X6_factory_dataset_getitem (list string) Fixture.list_stoi
                  Fixture.whitespace_tokenizer Fixture.build_in_order
                  Fixture.loader "SQuAD1" ".data" (Some Fixture.itos)
                  (Some Fixture.whitespace_tokenizer) (SplitStr "train")
                  (Single d) d 0 Fixture.cat_example)
        as (p & Hr & Lp & _)
  end.
  - reflexivity.
  - apply list_elem_of_singleton. reflexivity.
  - reflexivity.
  - simpl. lia.
  - exists p. split; [exact Hr|exact Lp].
Defined.



(** X8: the factory raises nothing but [TypeError] and [KeyError], and
    [KeyError] only when the raw loader yields fewer lists than there are
    requested splits: the internal error of [_wrap_datasets] cannot occur. *)
Theorem X8_factory_exceptions :
  ∀ (V : Type) (stoi : V → string → Z) (basic_english : Tokenizer)
    (build_vocab_from_iterator : list (list string) → nat → V)
    (raw_DATASETS : string → string → list string → list (list RawExample))
    (dataset_name root : string) (vocab0 : option V)
    (tokenizer : option Tokenizer) (split_ : SplitArg) (e : exn),
    _setup_datasets stoi basic_english build_vocab_from_iterator raw_DATASETS
      dataset_name root vocab0 tokenizer split_ = Err e →
    (e = TypeError ∨ e = KeyError) ∧
    (e = KeyError →
     (length (raw_DATASETS dataset_name root (requested split_))
      < length (requested split_))%nat).
Proof.
  intros V stoi basic_english build_vocab_from_iterator raw_DATASETS
    dataset_name root vocab0 tokenizer split_ e He.
  destruct (setup_datasets_raises _ _ _ _ _ _ _ _ _ _ He) as [->|[-> Hlt]].
  - split; [by left|done].
  - split; [by right|done].
Qed.

Lemma X8_witness :
  SQuAD1 Fixture.list_stoi Fixture.whitespace_tokenizer
    Fixture.build_in_order Fixture.short_loader None None None None
    = Err KeyError ∧
  (length (Fixture.short_loader "SQuAD1" ".data" ["train"; "dev"]) < 2)%nat.
Proof.
  assert (He : SQuAD1 Fixture.list_stoi Fixture.whitespace_tokenizer
                 Fixture.build_in_order Fixture.short_loader None None None None
               = Err KeyError) by reflexivity.
  split; [exact He|].
  exact (proj2 (X8_factory_exceptions (list string) Fixture.list_stoi
                  Fixture.whitespace_tokenizer Fixture.build_in_order
                  Fixture.short_loader "SQuAD1" ".data" None None
                  (SplitTuple ["train"; "dev"]) KeyError He) eq_refl).
Defined.

(** X9: a split name may be requested more than once.  The datasets returned
    for two occurrences of a name are then equal, and their data is the list
    that the raw loader yielded for the last occurrence of the name. *)
Theorem X9_repeated_split_name :
  ∀ (V : Type) (stoi : V → string → Z) (basic_english : Tokenizer)
    (build_vocab_from_iterator : list (list string) → nat → V)
    (raw_DATASETS : string → string → list string → list (list RawExample))
    (dataset_name root : string) (vocab0 : option V)
    (tokenizer : option Tokenizer) (names : list string)
    (ds : list (Dataset (V:=V))),
    _setup_datasets stoi basic_english build_vocab_from_iterator raw_DATASETS
      dataset_name root vocab0 tokenizer (SplitTuple names) = OK (Tuple ds) →
    (∀ (k1 k2 : nat) (item : string),
       names !! k1 = Some item → names !! k2 = Some item →
       ds !! k1 = ds !! k2)
    ∧
    (∀ (k last : nat) (item : string) (raw : list RawExample),
       names !! k = Some item →
       names !! last = Some item →
       (∀ k' : nat, (last < k')%nat → names !! k' ≠ Some item) →
       raw_DATASETS dataset_name root names !! last = Some raw →
       ∃ d, ds !! k = Some d ∧ data d = raw).
Proof.
  intros V stoi basic_english build_vocab_from_iterator raw_DATASETS
    dataset_name root vocab0 tokenizer names ds Hw.
  destruct (setup_datasets_inv _ _ _ _ _ _ _ _ _ _ Hw)
    as (_ & v & ds' & _ & Hds & Hwrap).
  simpl in *. injection Hwrap as ->.
  split.
  - intros k1 k2 item H1 H2.
    destruct (Forall2_lookup_l _ _ _ _ _ Hds H1) as (d1 & Hd1 & raw1 & Hr1 & ->).
    destruct (Forall2_lookup_l _ _ _ _ _ Hds H2) as (d2 & Hd2 & raw2 & Hr2 & ->).
    etrans; [exact Hd1|]. symmetry. etrans; [exact Hd2|]. congruence.
  - intros k last item raw Hk Hlast Hnone Hraw.
    destruct (Forall2_lookup_l _ _ _ _ _ Hds Hk) as (d & Hd & raw' & Hr & ->).
    eexists. split; [exact Hd|]. simpl.
    rewrite (make_raw_data_last names _ last item raw Hlast Hraw Hnone) in Hr.
    congruence.
Qed.

Lemma X9_witness :
  ∃ ds,
    SQuAD1 Fixture.list_stoi Fixture.whitespace_tokenizer
      Fixture.build_in_order Fixture.numbered_loader
      None None None (Some (SplitTuple ["train"; "train"])) = OK (Tuple ds) ∧
    ds !! 0%nat = ds !! 1%nat ∧
    ∃ d, ds !! 0%nat = Some d ∧ data d = [Fixture.cat_example].
Proof.
  eexists. split; [reflexivity|].
  match goal with
  | |- ?ds !! 0%nat = _ ∧ _ =>
      destruct (X9_repeated_split_name (list string) Fixture.list_stoi
                  Fixture.whitespace_tokenizer Fixture.build_in_order
                  Fixture.numbered_loader "SQuAD1" ".data" None None
                  ["train"; "train"] ds eq_refl) as [Hsame Hlast]
  end.
  split.
  - exact (Hsame 0%nat 1%nat "train" eq_refl eq_refl).
  - apply (Hlast 0%nat 1%nat "train" [Fixture.cat_example]).
    + reflexivity.
    + reflexivity.
    + intros k' Hk'. destruct k' as [|[|k']]; [lia|lia|]. discriminate.
    + reflexivity.
Defined.

(** X10: SQuAD1 and SQuAD2 differ in nothing but the raw loader they call:
    where the raw loader yields the same lists under both names, for the
    root and the splits of the call, the two factories return the same
    value or raise the same exception. *)
Theorem X10_factories_differ_by_loader_only :
  ∀ (V : Type) (stoi : V → string → Z) (basic_english : Tokenizer)
    (build_vocab_from_iterator : list (list string) → nat → V)
    (raw_DATASETS : string → string → list string → list (list RawExample))
    (root : option string) (vocab0 : option (option V))
    (tokenizer : option (option Tokenizer)) (split_ : option SplitArg),
    let root' := match root with Some r => r | None => ".data" end in
    let split' :=
      requested
        (match split_ with Some s => s | None => SplitTuple ["train"; "dev"] end) in
    raw_DATASETS "SQuAD1" root' split' = raw_DATASETS "SQuAD2" root' split' →
    SQuAD1 stoi basic_english build_vocab_from_iterator raw_DATASETS
      root vocab0 tokenizer split_
    = SQuAD2 stoi basic_english build_vocab_from_iterator raw_DATASETS
        root vocab0 tokenizer split_.
Proof.
  intros V stoi basic_english build_vocab_from_iterator raw_DATASETS
    root vocab0 tokenizer split_ root' split' Hraw.
  assert (Hname : ∀ n1 n2 r vo t s,
            raw_DATASETS n1 r (requested s) = raw_DATASETS n2 r (requested s) →
            _setup_datasets stoi basic_english build_vocab_from_iterator
              raw_DATASETS n1 r vo t s
            = _setup_datasets stoi basic_english build_vocab_from_iterator
                raw_DATASETS n2 r vo t s).
  { intros n1 n2 r vo t s H. unfold _setup_datasets, _check_default_set.
    destruct (forallb _ (requested s)); simpl; [|done]. by rewrite H. }
  unfold SQuAD1, SQuAD2. apply Hname.
  by destruct root, split_.
Qed.

Lemma X10_witness :
  SQuAD1 Fixture.list_stoi Fixture.whitespace_tokenizer
    Fixture.build_in_order Fixture.loader None None None None
  = SQuAD2 Fixture.list_stoi Fixture.whitespace_tokenizer
      Fixture.build_in_order Fixture.loader None None None None.
Proof.
  apply (X10_factories_differ_by_loader_only (list string) Fixture.list_stoi
           Fixture.whitespace_tokenizer Fixture.build_in_order Fixture.loader
           None None None None).
  reflexivity.
Defined.

(** X12: the token stream of the vocabulary has one token list for every
    example, in the order of the examples: the stream of two data lists one
    after the other is the stream of the first followed by the stream of the
    second.  The offsets of the answers have no part in it: examples that
    differ only in their offsets yield the same stream. *)
Theorem X12_apply_transform_stream_shape :
  ∀ (text_transform : Tokenizer) (data1 data2 : list RawExample)
    (offsets : RawExample → list Z),
    length (apply_transform text_transform data1) = length data1 ∧
    apply_transform text_transform (data1 ++ data2)
    = apply_transform text_transform data1
      ++ apply_transform text_transform data2 ∧
    apply_transform text_transform
      ((λ ex, {| raw_context := raw_context ex;
                 raw_question := raw_question ex;
                 raw_answers := raw_answers ex;
                 raw_answer_start := offsets ex |}) <$> data1)
    = apply_transform text_transform data1.
Proof.
  intros text_transform data1 data2 offsets. unfold apply_transform.
  split; [by rewrite length_fmap|]. split; [by rewrite fmap_app|].
  rewrite <- list_fmap_compose. by apply list_fmap_ext.
Qed.
